(** * vrc-adult-detection: a shallow embedding of the relay server

    The development follows the TypeScript sources file by file:
    - [ErrorHandler]    : errorHandler.ts  (handleVRChatError)
    - [CooldownManager] : cooldownManager.ts
    - [VRChatClient]    : vrchatClient.ts  (the session singleton)
    - [Server]          : index.ts         (admission middleware, /health,
                                            /checkAdultStatus)

    JavaScript numbers that the code handles (HTTP status codes, millisecond
    clock readings) are integers and are modelled in [Z].  Request headers
    and the parsed query string are finite maps keyed by strings. *)

From Stdlib Require Import ZArith String List Bool Lia Sorted.
From stdpp Require Import base option list strings gmap.

Set Warnings "-register-all".
Local Open Scope string_scope.
Local Open Scope list_scope.
Local Open Scope Z_scope.

(** ** JavaScript values seen by the server *)

(** A thrown value, as far as [handleVRChatError] and [initialize] observe
    it.  The error classes exported by the vrc-ts client library are a
    tag: a value is an instance of at most one of them.  The remaining
    fields are the properties the code reads; status codes are integers. *)
Inductive ErrorClass :=
| RequestError | UserNotAuthenticated | BadRequestParameter
| InvalidUserAgent | TOTPRequired | EmailOtpRequired
| CookiesExpired | CookiesNotFound.

#[global] Instance ErrorClass_eq_dec : EqDecision ErrorClass.
Proof. solve_decision. Defined.

Record Thrown := mkThrown {
  (** the vrc-ts class the value is an instance of, if any *)
  cls : option ErrorClass;
  (** [typeof error === "object" && error !== null] *)
  isObject : bool;
  (** [error instanceof Error] *)
  isError : bool;
  (** [error.message] for an Error instance, [String(error)] otherwise *)
  message : string;
  (** property [statusCode]: [None] when absent ("statusCode" in error is
      false), [Some None] when present but undefined or null *)
  statusCode : option (option Z);
  (** [error.response] is a non-null object that has a [status] property;
      the inner option is the value of [error.response.status] *)
  responseStatus : option (option Z)
}.

(** [new Error(msg)] *)
Definition newError (msg : string) : Thrown :=
  {| cls := None; isObject := true; isError := true; message := msg;
     statusCode := None; responseStatus := None |}.

Definition instanceOf (error : Thrown) (c : ErrorClass) : bool :=
  bool_decide (cls error = Some c).

(** The outcome of evaluating an expression that may throw. *)
Inductive Result (A : Type) :=
| Ok (a : A)
| Throw (e : Thrown).
Arguments Ok {A} a.
Arguments Throw {A} e.

(** A value of [req.query.<name>] as the qs parser produces it; an absent
    parameter is [None] at the lookup. *)
Inductive QueryVal :=
| QStr (s : string)
| QArr (items : list QueryVal)
| QObj (fields : list (string * QueryVal)).

(** JavaScript truthiness of [string | string[] | ParsedQs | undefined]:
    only [undefined] and the empty string are falsy. *)
Definition truthy (v : option QueryVal) : bool :=
  match v with
  | None => false
  | Some (QStr s) => negb (String.eqb s "")
  | Some (QArr _) => true
  | Some (QObj _) => true
  end.

(** [typeof v === "string"] *)
Definition typeofString (v : option QueryVal) : bool :=
  match v with
  | Some (QStr _) => true
  | _ => false
  end.

(** The string carried by a value whose [typeof] is ["string"]. *)
Definition asString (v : option QueryVal) : string :=
  match v with
  | Some (QStr s) => s
  | _ => ""
  end.

(** [a || b] where [b] comes from [req.get], a [string | undefined]. *)
Definition orElse (a : option QueryVal) (b : option string) : option QueryVal :=
  if truthy a then a else QStr <$> b.

(** [!s] for [s : string | undefined]. *)
Definition falsyStr (s : option string) : bool :=
  match s with
  | None => true
  | Some x => String.eqb x ""
  end.

(** [Array.prototype.includes] on an array of strings. *)
Definition includes (xs : list string) (x : string) : bool :=
  existsb (String.eqb x) xs.

(** [haystack.includes(needle)] on strings. *)
Definition strIncludes (haystack needle : string) : bool :=
  match String.index 0 needle haystack with
  | Some _ => true
  | None => false
  end.

(** A field of an upstream JSON profile as JavaScript sees it. *)
Inductive JsVal :=
| VUndefined
| VNull
| VBool (b : bool)
| VNum (z : Z)
| VStr (s : string).

#[global] Instance JsVal_eq_dec : EqDecision JsVal.
Proof. solve_decision. Defined.

(** [v === s] for a string literal [s]. *)
Definition strictEqStr (v : JsVal) (s : string) : bool :=
  match v with
  | VStr x => String.eqb x s
  | _ => false
  end.

(** JSON bodies handed to [res.json]; object fields keep insertion order. *)
Inductive Json :=
| JNull
| JBool (b : bool)
| JNum (z : Z)
| JStr (s : string)
| JObj (fields : list (string * Json)).

Record Response := mkResponse {
  status : Z;
  body : Json
}.

(** ** errorHandler.ts *)

Module ErrorResponse.
Record t := mk {
  error : string;
  statusCode : option Z;
  errorType : option string
}.

(** What [res.json(response)] sends: undefined fields are dropped. *)
Definition toJson (r : t) : Json :=
  JObj ([("error", JStr (error r))]
        ++ match statusCode r with
           | Some c => [("statusCode", JNum c)]
           | None => []
           end
        ++ match errorType r with
           | Some k => [("errorType", JStr k)]
           | None => []
           end).
End ErrorResponse.

Module ErrorHandler.

(** Comparisons of a [number | undefined] against a literal; every
    comparison with [undefined] is false. *)
Definition numEq (v : option Z) (k : Z) : bool :=
  match v with Some z => z =? k | None => false end.
Definition numGe (v : option Z) (k : Z) : bool :=
  match v with Some z => k <=? z | None => false end.
Definition numLt (v : option Z) (k : Z) : bool :=
  match v with Some z => z <? k | None => false end.

(** [error.statusCode] *)
Definition readStatusCode (error : Thrown) : option Z :=
  mjoin (statusCode error).

(** [error.response?.status] *)
Definition readResponseStatus (error : Thrown) : option Z :=
  mjoin (responseStatus error).

Definition isAxiosLikeError (error : Thrown) : bool :=
  isObject error
  && (bool_decide (is_Some (statusCode error))
      || bool_decide (is_Some (responseStatus error))).

Definition getStatusCode (error : Thrown) : option Z :=
  if instanceOf error RequestError then readStatusCode error
  else if isAxiosLikeError error then
    match readStatusCode error with
    | Some z => Some z
    | None => readResponseStatus error
    end
  else None.

(** The status chosen in the [RequestError] branch. *)
Definition requestErrorStatus (statusCode : option Z) : Z :=
  if numEq statusCode 401 then 401
  else if numEq statusCode 403 then 403
  else if numEq statusCode 404 then 404
  else if numEq statusCode 429 then 429
  else if numGe statusCode 400 && numLt statusCode 500 then default 500 statusCode
  else if numGe statusCode 500 then 502
  else 500.

Definition networkMessage (msg : string) : bool :=
  strIncludes msg "network" || strIncludes msg "ECONNREFUSED"
  || strIncludes msg "timeout".

(** The tail of [handleVRChatError]: generic [Error] objects, then the
    unknown case. *)
Definition handleGeneric (error : Thrown) : Z * ErrorResponse.t :=
  if isError error then
    if networkMessage (message error) then
      (503, ErrorResponse.mk "VRChat API is unavailable" None (Some "NetworkError"))
    else
      (500, ErrorResponse.mk (message error) None (Some "Error"))
  else
    (500, ErrorResponse.mk "An unknown error occurred" None (Some "UnknownError")).

Definition handleVRChatError (error : Thrown) : Z * ErrorResponse.t :=
  if instanceOf error RequestError then
    (requestErrorStatus (readStatusCode error),
     ErrorResponse.mk (message error) (readStatusCode error) (Some "RequestError"))
  else if instanceOf error UserNotAuthenticated then
    (401, ErrorResponse.mk "VRChat client is not authenticated" (Some 401)
            (Some "UserNotAuthenticated"))
  else if instanceOf error BadRequestParameter then
    (400, ErrorResponse.mk
            (if String.eqb (message error) "" then "Invalid request parameter"
             else message error)
            None (Some "BadRequestParameter"))
  else if instanceOf error InvalidUserAgent then
    (500, ErrorResponse.mk "Invalid user agent configuration" None
            (Some "InvalidUserAgent"))
  else if instanceOf error TOTPRequired || instanceOf error EmailOtpRequired then
    (500, ErrorResponse.mk "2FA authentication required - check configuration" None
            (Some (if instanceOf error TOTPRequired then "TOTPRequired"
                   else "EmailOtpRequired")))
  else if instanceOf error CookiesExpired || instanceOf error CookiesNotFound then
    (500, ErrorResponse.mk "Cookie authentication issue - may need to re-authenticate"
            None
            (Some (if instanceOf error CookiesExpired then "CookiesExpired"
                   else "CookiesNotFound")))
  else if isAxiosLikeError error then
    match getStatusCode error with
    | Some statusCode =>
        if statusCode =? 0 then handleGeneric error
        else
          (if (400 <=? statusCode) && (statusCode <? 600) then statusCode else 500,
           ErrorResponse.mk
             (if isError error then message error else "HTTP request failed")
             (Some statusCode) (Some "HttpError"))
    | None => handleGeneric error
    end
  else handleGeneric error.

End ErrorHandler.

(** ** cooldownManager.ts *)

Module CooldownManager.

Record t := mk { lastRequestTime : Z }.

Definition cooldownMs : Z := 3000.

(** [new CooldownManager()] *)
Definition initial : t := mk 0.

(** The synchronous head of [waitForCooldown], up to the [await]: with
    [now] the reading of [Date.now()], the delay handed to [setTimeout],
    or [None] when the body of the [if] is skipped. *)
Definition waitTime (now : Z) (self : t) : option Z :=
  let timeSinceLastRequest := now - lastRequestTime self in
  if timeSinceLastRequest <? cooldownMs
  then Some (cooldownMs - timeSinceLastRequest)
  else None.

(** The last statement of [waitForCooldown], with [now] the second
    reading of [Date.now()]. *)
Definition record (now : Z) (self : t) : t :=
  mk now.

Definition getTimeRemaining (now : Z) (self : t) : Z :=
  let timeSinceLastRequest := now - lastRequestTime self in
  let remaining := cooldownMs - timeSinceLastRequest in
  if 0 <? remaining then remaining else 0.

(** *** Callers sharing the singleton on the event loop

    An [async] function runs without interruption between two [await]s.
    A call of [waitForCooldown] is therefore made of two atomic pieces:
    [Enter], which reads the clock and either suspends on a timer or
    runs on, and [Leave], which reads the clock again and stores it.
    Other callers may run between the two when the caller is suspended. *)
Inductive Tick :=
| Enter (caller : nat) (now : Z)
| Leave (caller : nat) (now : Z).

Record Loop := mkLoop {
  gate : t;
  (** the caller that passed the [if] without waiting and has not yet
      reached the assignment *)
  running : option nat;
  (** suspended callers, each with the time its timer is due *)
  timers : gmap nat Z;
  (** the latest reading of [Date.now()] *)
  clock : Z;
  (** the values stored in [lastRequestTime], oldest first *)
  admitted : list Z
}.

Definition boot (start : Z) : Loop :=
  mkLoop initial None ∅ start [].

(** One tick of the loop, or [None] when the tick cannot happen: the
    clock never runs backwards, a timer never fires early, and nothing
    else runs while a caller is between the [if] and the assignment. *)
Definition step (k : Tick) (l : Loop) : option Loop :=
  match k with
  | Enter c now =>
      if bool_decide (running l = None) && (clock l <=? now)
         && bool_decide (timers l !! c = None)
      then
        match waitTime now (gate l) with
        | Some w =>
            Some (mkLoop (gate l) None (<[c := now + w]> (timers l)) now (admitted l))
        | None =>
            Some (mkLoop (gate l) (Some c) (timers l) now (admitted l))
        end
      else None
  | Leave c now =>
      if clock l <=? now then
        match running l with
        | Some r =>
            if bool_decide (r = c)
            then Some (mkLoop (record now (gate l)) None (timers l) now
                         (admitted l ++ [now]))
            else None
        | None =>
            match timers l !! c with
            | Some due =>
                if due <=? now
                then Some (mkLoop (record now (gate l)) None (delete c (timers l)) now
                             (admitted l ++ [now]))
                else None
            | None => None
            end
        end
      else None
  end.

Fixpoint run (ks : list Tick) (l : Loop) : option Loop :=
  match ks with
  | [] => Some l
  | k :: ks' =>
      match step k l with
      | Some l' => run ks' l'
      | None => None
      end
  end.

(** Every two neighbours of a list of admission times are at least
    [cooldownMs] apart. *)
Fixpoint spaced (ts : list Z) : bool :=
  match ts with
  | [] => true
  | a :: rest =>
      match rest with
      | [] => true
      | b :: _ => (a + cooldownMs <=? b) && spaced rest
      end
  end.

(** A schedule in which no two calls overlap: every caller leaves before
    the next one enters. *)
Fixpoint serial (ks : list Tick) : bool :=
  match ks with
  | [] => true
  | Enter c _ :: rest =>
      match rest with
      | Leave c' _ :: rest' => bool_decide (c = c') && serial rest'
      | _ => false
      end
  | Leave _ _ :: _ => false
  end.

End CooldownManager.

(** ** vrchatClient.ts *)

Module CurrentUser.
Record t := mk { id : string; displayName : string }.
End CurrentUser.

Module LimitedUser.
Record t := mk { id : string; displayName : string }.
End LimitedUser.

Module User.
Record t := mk { id : string; displayName : string; ageVerificationStatus : JsVal }.
End User.

Module AgeVerificationStatus.
Definition Hidden : string := "hidden".
Definition Verified_18_Plus : string := "18+".
End AgeVerificationStatus.

(** The two operations of [api.userApi] that the server calls.  Within one
    request each is called with its arguments at most once, so a function
    of the arguments is enough. *)
Record UsersApi := mkUsersApi {
  searchAllUsers : string -> Z -> bool -> Result (list LimitedUser.t);
  getUserById : string -> Result User.t
}.

Module VRChatAPI.
Record t := mk {
  currentUser : option CurrentUser.t;
  userApi : UsersApi
}.
End VRChatAPI.

Module VRChatClient.

Record t := mk {
  api : option VRChatAPI.t;
  isAuthenticated : bool;
  currentUser : option CurrentUser.t;
  initializationError : option Thrown
}.

(** [new VRChatClient()] *)
Definition initial : t := mk None false None None.

(** The argument of [new VRChatAPI({...})]. *)
Record Config := mkConfig {
  username : string;
  password : string;
  userAgent : string;
  TwoFactorAuthSecret : option string;
  useCookies : bool;
  cookiePath : string
}.

(** What one call of [initialize] reads from outside: [process.env], the
    library constructor, which may throw, and [api.login()], which
    updates the api object and may throw. *)
Record Env := mkEnv {
  VRCHAT_USERNAME : option string;
  VRCHAT_PASSWORD : option string;
  VRCHAT_2FA_SECRET : option string;
  USER_AGENT : option string;
  USE_COOKIES : option string;
  COOKIES_PATH : option string;
  newVRChatAPI : Config -> Result VRChatAPI.t;
  login : VRChatAPI.t -> VRChatAPI.t * option Thrown
}.

(** [s || d] for [s : string | undefined] *)
Definition orDefault (s : option string) (d : string) : string :=
  if falsyStr s then d else default d s.

(** The body of the [try] block. *)
Definition tryInitialize (env : Env) (self : t) : Result unit * t :=
  let username := VRCHAT_USERNAME env in
  let password := VRCHAT_PASSWORD env in
  let twoFactorAuthSecret := VRCHAT_2FA_SECRET env in
  let userAgent := orDefault (USER_AGENT env) "VRChatProxyAdultCheck/1.0.0" in
  let useCookies := negb (bool_decide (USE_COOKIES env = Some "false")) in
  let cookiePath := orDefault (COOKIES_PATH env) "./cookies.json" in
  if falsyStr username || falsyStr password then
    (Throw (newError "VRCHAT_USERNAME and VRCHAT_PASSWORD are required in .env file"),
     self)
  else
    match newVRChatAPI env
            (mkConfig (default "" username) (default "" password) userAgent
               twoFactorAuthSecret useCookies cookiePath) with
    | Throw e => (Throw e, self)
    | Ok created =>
        let '(loggedIn, thrown) := login env created in
        let self1 :=
          mk (Some loggedIn) (isAuthenticated self) (currentUser self)
            (initializationError self) in
        match thrown with
        | Some e => (Throw e, self1)
        | None =>
            match VRChatAPI.currentUser loggedIn with
            | None =>
                (Throw (newError "Authentication failed: currentUser is null"), self1)
            | Some u =>
                (Ok tt, mk (Some loggedIn) true (Some u) None)
            end
        end
    end.

Definition initialize (env : Env) (self : t) : Result unit * t :=
  if isAuthenticated self && bool_decide (is_Some (api self)) then (Ok tt, self)
  else
    match tryInitialize env self with
    | (Ok _, self1) => (Ok tt, self1)
    | (Throw error, self1) =>
        let reason := if isError error then error else newError (message error) in
        (Throw reason, mk (api self1) false (currentUser self1) (Some reason))
    end.

Definition notAuthenticated : Thrown :=
  newError "VRChat client is not initialized or authenticated".

Definition getApi (self : t) : Result VRChatAPI.t :=
  match api self with
  | Some a => if negb (isAuthenticated self) then Throw notAuthenticated else Ok a
  | None => Throw notAuthenticated
  end.

Definition getCurrentUser (self : t) : option CurrentUser.t :=
  currentUser self.

Definition isReady (self : t) : bool :=
  isAuthenticated self && bool_decide (is_Some (api self))
  && bool_decide (is_Some (currentUser self)).

Definition getInitializationError (self : t) : option Thrown :=
  initializationError self.

(** A sequence of calls of [initialize], one environment per call; the
    outcomes are returned oldest first. *)
Fixpoint initializeAll (envs : list Env) (self : t) : list (Result unit) * t :=
  match envs with
  | [] => ([], self)
  | env :: rest =>
      let '(r, self1) := initialize env self in
      let '(rs, self2) := initializeAll rest self1 in
      (r :: rs, self2)
  end.

Definition failed (r : Result unit) : bool :=
  match r with
  | Ok _ => false
  | Throw _ => true
  end.

End VRChatClient.

(** ** index.ts *)

Module Server.

Record Request := mkRequest {
  method : string;
  path : string;
  (** header names are lower-case, as Node delivers them *)
  headers : gmap string string;
  query : gmap string QueryVal
}.

(** [req.get(name)] *)
Definition get (req : Request) (name : string) : option string :=
  headers req !! name.

(** What a request makes the process do besides answering. *)
Inductive Event :=
| EvSleep (ms : Z)
| EvSearchAllUsers (search : string) (n : Z) (fuzzy : bool)
| EvGetUserById (userId : string).

(** The two singletons, the clock read by [Date.now()], and the events so
    far, oldest first. *)
Record World := mkWorld {
  vrchatClient : VRChatClient.t;
  cooldownManager : CooldownManager.t;
  now : Z;
  trace : list Event
}.

(** Code that reads and updates the world and may throw; what was done
    before a throw stays done. *)
Definition M (A : Type) : Type := World -> Result A * World.

#[global] Instance M_ret : MRet M := fun A a w => (Ok a, w).

#[global] Instance M_bind : MBind M :=
  fun A B k m w =>
    match m w with
    | (Ok a, w1) => k a w1
    | (Throw e, w1) => (Throw e, w1)
    end.

(** A synchronous expression that may throw. *)
Definition lift {A} (r : Result A) : M A := fun w => (r, w).

Definition emit (ev : Event) : M unit :=
  fun w => (Ok tt, mkWorld (vrchatClient w) (cooldownManager w) (now w) (trace w ++ [ev])).

(** [Date.now()] *)
Definition dateNow : M Z := fun w => (Ok (now w), w).

(** [await new Promise((resolve) => setTimeout(resolve, ms))]: the timer
    is taken to fire exactly when due. *)
Definition sleep (ms : Z) : M unit :=
  fun w =>
    (Ok tt, mkWorld (vrchatClient w) (cooldownManager w) (now w + ms)
              (trace w ++ [EvSleep ms])).

Definition readCooldown : M CooldownManager.t :=
  fun w => (Ok (cooldownManager w), w).

Definition writeCooldown (c : CooldownManager.t) : M unit :=
  fun w => (Ok tt, mkWorld (vrchatClient w) c (now w) (trace w)).

(** [cooldownManager.waitForCooldown()] run by a single caller. *)
Definition waitForCooldown : M unit :=
  t0 ← dateNow;
  self ← readCooldown;
  match CooldownManager.waitTime t0 self with
  | Some waitTime => sleep waitTime
  | None => mret tt
  end;;
  t1 ← dateNow;
  self1 ← readCooldown;
  writeCooldown (CooldownManager.record t1 self1).

(** [vrchatClient.getApi()] *)
Definition getApi : M VRChatAPI.t :=
  fun w => (VRChatClient.getApi (vrchatClient w), w).

(** [await api.userApi.searchAllUsers({ search, n, fuzzy })] *)
Definition callSearchAllUsers (api : VRChatAPI.t) (search : string) (n : Z)
    (fuzzy : bool) : M (list LimitedUser.t) :=
  emit (EvSearchAllUsers search n fuzzy);;
  lift (searchAllUsers (VRChatAPI.userApi api) search n fuzzy).

(** [await api.userApi.getUserById({ userId })] *)
Definition callGetUserById (api : VRChatAPI.t) (userId : string) : M User.t :=
  emit (EvGetUserById userId);;
  lift (getUserById (VRChatAPI.userApi api) userId).

Definition ALLOWED_USER_AGENTS : list string :=
  [ "UnityPlayer/2022.3.22f1-DWR (UnityWebRequest/1.0, libcurl/8.5.0-DEV)";
    "UnityPlayer/2022.3.22f1 (UnityWebRequest/1.0, libcurl/8.5.0-DEV)" ].

Definition ALLOWED_UNITY_VERSIONS : list string :=
  [ "2022.3.22f1-DWR"; "2022.3.22f1" ].

Definition ALLOWED_CALLED_FROM : list string :=
  [ "loveworld"; "maxieworld" ].

Definition errorBody (msg : string) : Json :=
  JObj [("error", JStr msg)].

(** A middleware either answers or calls [next()] ([None]). *)
Definition Layer : Type := Request -> World -> option Response * World.

(** The value the validation middleware names [calledFrom]. *)
Definition calledFromOf (req : Request) : option QueryVal :=
  orElse (query req !! "calledfrom") (get req "x-called-from").

(** The validation middleware; it has no effect on the world. *)
Definition validate (req : Request) : option Response :=
  if String.eqb (path req) "/health" then None
  else
    let userAgent := get req "user-agent" in
    let unityVersion := get req "x-unity-version" in
    let calledFrom := calledFromOf req in
    if falsyStr userAgent
       || negb (includes ALLOWED_USER_AGENTS (default "" userAgent))
    then Some (mkResponse 404 (errorBody "Not found"))
    else if falsyStr unityVersion
            || negb (includes ALLOWED_UNITY_VERSIONS (default "" unityVersion))
    then Some (mkResponse 404 (errorBody "Not found"))
    else if negb (truthy calledFrom) || negb (typeofString calledFrom)
            || negb (includes ALLOWED_CALLED_FROM (asString calledFrom))
    then Some (mkResponse 404 (errorBody "Not found"))
    else None.

Definition validationMiddleware : Layer :=
  fun req w => (validate req, w).

(** [`${value}`] on a query value converts it to a string. A string is
    itself; an array is joined, which converts every element; an object
    answers through [Object.prototype.toString] unless it has a property of
    its own named [toString], which, coming from a query string, is never a
    function: then the conversion throws a TypeError. *)
Fixpoint printable (v : QueryVal) : bool :=
  match v with
  | QStr _ => true
  | QArr items => forallb printable items
  | QObj fields =>
      negb (existsb (fun field => String.eqb (fst field) "toString") fields)
  end.

(** Every value of [req.query] can be put into a template string. *)
Definition loggable (req : Request) : bool :=
  bool_decide (map_Forall (fun _ v => printable v = true) (query req)).

(** The TypeError thrown by the conversion of such an object. *)
Definition notPrimitive : Thrown :=
  newError "Cannot convert object to primitive value".

(** The scan of the search results: the first element whose display name
    is the requested one has its profile fetched, and the loop ends. *)
Fixpoint findExactMatch (api : VRChatAPI.t) (displayName : string)
    (searchResults : list LimitedUser.t) : M (option User.t) :=
  match searchResults with
  | [] => mret None
  | searchResult :: rest =>
      if String.eqb (LimitedUser.displayName searchResult) displayName then
        fullUser ← callGetUserById api (LimitedUser.id searchResult);
        mret (Some fullUser)
      else findExactMatch api displayName rest
  end.

(** The body of the [try] block of the /checkAdultStatus handler. *)
Definition tryCheckAdultStatus (req : Request) : M Response :=
  let displayName := query req !! "username" in
  if negb (truthy displayName) || negb (typeofString displayName) then
    mret (mkResponse 400
            (errorBody "Username query parameter is required and must be a string"))
  else
    let displayName := asString displayName in
    waitForCooldown;;
    api ← getApi;
    searchResults ← callSearchAllUsers api displayName 100 false;
    if (Z.of_nat (length searchResults) =? 0) then
      mret (mkResponse 404 (errorBody "User not found"))
    else
      matchedUser ← findExactMatch api displayName searchResults;
      match matchedUser with
      | None =>
          mret (mkResponse 404 (errorBody "User not found with exact displayName match"))
      | Some matchedUser =>
          let isAgeVerified :=
            strictEqStr (User.ageVerificationStatus matchedUser)
              AgeVerificationStatus.Verified_18_Plus in
          mret (mkResponse 200
                 (JObj [("age-verified", JStr (if isAgeVerified then "true" else "false"));
                        ("username", JStr (User.displayName matchedUser))]))
      end.

Definition checkAdultStatus (req : Request) (w : World) : Response * World :=
  match tryCheckAdultStatus req w with
  | (Ok res, w1) => (res, w1)
  | (Throw error, w1) =>
      let '(statusCode, response) := ErrorHandler.handleVRChatError error in
      (mkResponse statusCode (ErrorResponse.toJson response), w1)
  end.

Section Express.

(** [new Date(ms).toISOString()] and the router's test that a request
    path matches a route path belong to the platform. So do [crash], the
    answer the framework sends when a layer throws or passes an error on,
    and [parsed], the error [express.json()] passes on for the request at
    hand, if any: it depends on the request's body, which [Request] does
    not carry. *)
Context (toISOString : Z -> string) (matchPath : string -> string -> bool)
  (crash : Thrown -> Response) (parsed : option Thrown).

(** The request logging middleware. What it prints is not part of the
    model; it reads the headers, the query and, were there one, the body,
    which [express.json()] has not yet set. Printing the query values is
    the one step that can throw, and the framework then answers in its
    place; otherwise the layer calls [next()]. *)
Definition loggingMiddleware : Layer :=
  fun req w => if loggable req then (None, w) else (Some (crash notPrimitive), w).

(** [express.json()]: it calls [next()], or passes an error on, to which
    the framework answers. *)
Definition jsonMiddleware : Layer :=
  fun _ w =>
    match parsed with
    | None => (None, w)
    | Some error => (Some (crash error), w)
    end.

Definition health (_req : Request) (w : World) : Response * World :=
  let isReady := VRChatClient.isReady (vrchatClient w) in
  if negb isReady then
    let error := VRChatClient.getInitializationError (vrchatClient w) in
    (mkResponse 503
       (JObj [("status", JStr "unhealthy");
              ("timestamp", JStr (toISOString (now w)));
              ("error", JStr match error with
                             | Some e => message e
                             | None => "VRChat client not initialized"
                             end);
              ("vrchatClientReady", JBool false)]), w)
  else
    let currentUser := VRChatClient.getCurrentUser (vrchatClient w) in
    (mkResponse 200
       (JObj [("status", JStr "healthy");
              ("timestamp", JStr (toISOString (now w)));
              ("vrchatClientReady", JBool true);
              ("authenticatedUser", match currentUser with
                                    | Some u => JStr (CurrentUser.displayName u)
                                    | None => JNull
                                    end)]), w).

(** The methods for which the router runs a handler registered with
    [app.get]: GET, and HEAD when the route has no handler of its own for
    it. *)
Definition servedByGet (m : string) : bool :=
  String.eqb m "GET" || String.eqb m "HEAD".

(** [app.get(route, handler)]. To a HEAD request the platform sends the
    status of the handler's answer without its body. *)
Definition appGet (route : string)
    (handler : Request -> World -> Response * World) : Layer :=
  fun req w =>
    if servedByGet (method req) && matchPath route (path req) then
      let '(res, w1) := handler req w in (Some res, w1)
    else (None, w).

(** The layers in the order they are registered on [app]. *)
Definition app : list Layer :=
  [ validationMiddleware;
    loggingMiddleware;
    jsonMiddleware;
    appGet "/health" health;
    appGet "/checkAdultStatus" checkAdultStatus ].

(** The layers are tried in order until one answers. With [None] no layer
    of the app has answered; what the framework then sends of its own (its
    404 page, its answer to OPTIONS) is not part of the model. *)
Fixpoint handle (layers : list Layer) (req : Request) (w : World)
    : option Response * World :=
  match layers with
  | [] => (None, w)
  | layer :: rest =>
      match layer req w with
      | (Some res, w1) => (Some res, w1)
      | (None, w1) => handle rest req w1
      end
  end.

End Express.

End Server.

(** *** Start-up and the life of the process (index.ts, [startServer]) *)

Module Startup.

Inductive Outcome :=
| Listening (client : VRChatClient.t)
| Exited (code : Z).

(** [startServer()]: the session is initialised on the fresh singleton,
    then [app.listen] is called; [listen] says whether that call throws.
    Any exception ends the process with [process.exit(1)]. *)
Definition startServer (env : VRChatClient.Env) (listen : Result unit) : Outcome :=
  match VRChatClient.initialize env VRChatClient.initial with
  | (Ok _, client) =>
      match listen with
      | Ok _ => Listening client
      | Throw _ => Exited 1
      end
  | (Throw _, _) => Exited 1
  end.

(** The world in which the first request is served. *)
Definition firstWorld (client : VRChatClient.t) (start : Z) : Server.World :=
  Server.mkWorld client CooldownManager.initial start [].

(** A request as it arrives: the reading of the clock, the request, and
    the error [express.json()] passes on for its body, if any. *)
Record Arrival := mkArrival {
  at_time : Z;
  request : Server.Request;
  body_error : option Thrown
}.

(** Requests served one after the other; [stack] gives the layers of the
    app for a request whose body fares as told. The answers are returned
    in the order of arrival. *)
Fixpoint serve (stack : option Thrown -> list Server.Layer) (arrivals : list Arrival)
    (w : Server.World) : list (option Response) * Server.World :=
  match arrivals with
  | [] => ([], w)
  | a :: rest =>
      let w0 := Server.mkWorld (Server.vrchatClient w) (Server.cooldownManager w)
                  (at_time a) (Server.trace w) in
      let '(res, w1) := Server.handle (stack (body_error a)) (request a) w0 in
      let '(more, w2) := serve stack rest w1 in
      (res :: more, w2)
  end.

End Startup.

(** * Properties *)

Import Server.

(** ** Running the /checkAdultStatus handler *)

(** The upstream calls of a trace: everything but the timer waits. *)
Definition isUpstreamCall (ev : Event) : bool :=
  match ev with
  | EvSleep _ => false
  | _ => true
  end.

Definition upstreamCalls (tr : list Event) : list Event :=
  List.filter isUpstreamCall tr.

(** [c] is the first element of [results], in order, whose display name is
    [name], compared code unit by code unit. *)
Definition firstExactMatch (name : string) (results : list LimitedUser.t)
    (c : LimitedUser.t) : Prop :=
  ∃ pre post,
    results = pre ++ c :: post
    ∧ Forall (λ x, LimitedUser.displayName x ≠ name) pre
    ∧ LimitedUser.displayName c = name.

Definition noExactMatch (name : string) (results : list LimitedUser.t) : Prop :=
  Forall (λ x, LimitedUser.displayName x ≠ name) results.

(** The world once [waitForCooldown] has returned. *)
Definition afterCooldown (w : World) : World :=
  match CooldownManager.waitTime (now w) (cooldownManager w) with
  | Some waitTime =>
      mkWorld (vrchatClient w) (CooldownManager.mk (now w + waitTime))
        (now w + waitTime) (trace w ++ [EvSleep waitTime])
  | None =>
      mkWorld (vrchatClient w) (CooldownManager.mk (now w)) (now w) (trace w)
  end.

(** The world once the search has been issued. *)
Definition afterSearch (name : string) (w : World) : World :=
  let w1 := afterCooldown w in
  mkWorld (vrchatClient w1) (cooldownManager w1) (now w1)
    (trace w1 ++ [EvSearchAllUsers name 100 false]).

(** The world once the profile [userId] has been requested. *)
Definition afterFetch (name userId : string) (w : World) : World :=
  let w1 := afterSearch name w in
  mkWorld (vrchatClient w1) (cooldownManager w1) (now w1)
    (trace w1 ++ [EvGetUserById userId]).

(** The answer built from a thrown value by the [catch] clause. *)
Definition errorAnswer (e : Thrown) : Response :=
  mkResponse (ErrorHandler.handleVRChatError e).1
    (ErrorResponse.toJson (ErrorHandler.handleVRChatError e).2).

(** The answer for a resolved profile, as the interface documents it. *)
Definition profileAnswer (u : User.t) : Response :=
  mkResponse 200
    (JObj [("age-verified",
            JStr (if bool_decide (User.ageVerificationStatus u = VStr "18+")
                  then "true" else "false"));
           ("username", JStr (User.displayName u))]).

(** ** The admission checks in the words of the interface *)

Definition userAgentAllowed (req : Request) : Prop :=
  ∃ ua, get req "user-agent" = Some ua ∧ In ua ALLOWED_USER_AGENTS.

Definition unityVersionAllowed (req : Request) : Prop :=
  ∃ v, get req "x-unity-version" = Some v ∧ In v ALLOWED_UNITY_VERSIONS.

(** The caller tag is a single string, taken from the query or else from
    the header, and is one of the permitted tags. *)
Definition calledFromAllowed (req : Request) : Prop :=
  ∃ tag, calledFromOf req = Some (QStr tag) ∧ In tag ALLOWED_CALLED_FROM.

Definition failsAdmission (req : Request) : Prop :=
  ¬ userAgentAllowed req ∨ ¬ unityVersionAllowed req ∨ ¬ calledFromAllowed req.

(** The request with its [x-called-from] header set to [h], or removed. *)
Definition withCalledFromHeader (h : option string) (req : Request) : Request :=
  mkRequest (method req) (path req)
    (partial_alter (λ _, h) "x-called-from" (headers req)) (query req).

(** What holds of the loop between two calls that do not overlap. *)
Record quiet (l : CooldownManager.Loop) : Prop := mkQuiet {
  quiet_running : CooldownManager.running l = None;
  quiet_timers : CooldownManager.timers l = ∅;
  quiet_spaced : CooldownManager.spaced (CooldownManager.admitted l) = true;
  quiet_last : ∀ t, last (CooldownManager.admitted l) = Some t →
                    t = CooldownManager.lastRequestTime (CooldownManager.gate l)
}.

(** ** Words for the further properties *)

(** The name under which [handleVRChatError] reports a library class. *)
Definition className (c : ErrorClass) : string :=
  match c with
  | RequestError => "RequestError"
  | UserNotAuthenticated => "UserNotAuthenticated"
  | BadRequestParameter => "BadRequestParameter"
  | InvalidUserAgent => "InvalidUserAgent"
  | TOTPRequired => "TOTPRequired"
  | EmailOtpRequired => "EmailOtpRequired"
  | CookiesExpired => "CookiesExpired"
  | CookiesNotFound => "CookiesNotFound"
  end.

(** The three words by which a generic error is taken for a network
    failure. *)
Definition networkWords : list string := ["network"; "ECONNREFUSED"; "timeout"].

(** A thrown value from which the axios-like branch gets no status: it is
    not axios-like, or the status it carries is undefined, null or 0. *)
Definition noUsableStatus (e : Thrown) : Prop :=
  ErrorHandler.isAxiosLikeError e = false
  ∨ ErrorHandler.getStatusCode e = None
  ∨ ErrorHandler.getStatusCode e = Some 0.

(** A call of [initialize] returned normally. *)
Definition succeeded (r : Result unit) : bool := negb (VRChatClient.failed r).

(** What the event loop keeps true of the gate whatever the schedule. *)
Record sane (l : CooldownManager.Loop) : Prop := mkSane {
  sane_clock : CooldownManager.lastRequestTime (CooldownManager.gate l)
               ≤ CooldownManager.clock l;
  sane_sorted : StronglySorted Z.le (CooldownManager.admitted l);
  sane_latest : ∀ a, a ∈ CooldownManager.admitted l →
                  a ≤ CooldownManager.lastRequestTime (CooldownManager.gate l);
  sane_timers : ∀ c due, CooldownManager.timers l !! c = Some due →
                  due ≤ CooldownManager.lastRequestTime (CooldownManager.gate l)
                        + CooldownManager.cooldownMs
}.

(** The five ways in which the /checkAdultStatus handler can run, each
    with its answer, the world it leaves and the upstream calls it made. *)
Inductive Run (req : Request) (w : World) : Response → World → list Event → Prop :=
| run_refused :
    negb (truthy (query req !! "username"))
    || negb (typeofString (query req !! "username")) = true →
    Run req w
      (mkResponse 400
         (errorBody "Username query parameter is required and must be a string"))
      w []
| run_not_authenticated name e :
    query req !! "username" = Some (QStr name) → name ≠ "" →
    VRChatClient.getApi (vrchatClient w) = Throw e →
    Run req w (errorAnswer e) (afterCooldown w) []
| run_search_failed name api e :
    query req !! "username" = Some (QStr name) → name ≠ "" →
    VRChatClient.getApi (vrchatClient w) = Ok api →
    searchAllUsers (VRChatAPI.userApi api) name 100 false = Throw e →
    Run req w (errorAnswer e) (afterSearch name w) [EvSearchAllUsers name 100 false]
| run_no_match name api results :
    query req !! "username" = Some (QStr name) → name ≠ "" →
    VRChatClient.getApi (vrchatClient w) = Ok api →
    searchAllUsers (VRChatAPI.userApi api) name 100 false = Ok results →
    noExactMatch name results →
    Run req w
      (mkResponse 404
         (errorBody match results with
                    | [] => "User not found"
                    | _ :: _ => "User not found with exact displayName match"
                    end))
      (afterSearch name w) [EvSearchAllUsers name 100 false]
| run_match name api results c :
    query req !! "username" = Some (QStr name) → name ≠ "" →
    VRChatClient.getApi (vrchatClient w) = Ok api →
    searchAllUsers (VRChatAPI.userApi api) name 100 false = Ok results →
    firstExactMatch name results c →
    Run req w
      match getUserById (VRChatAPI.userApi api) (LimitedUser.id c) with
      | Ok u => profileAnswer u
      | Throw e => errorAnswer e
      end
      (afterFetch name (LimitedUser.id c) w)
      [EvSearchAllUsers name 100 false; EvGetUserById (LimitedUser.id c)].

(** ** Concrete requests and worlds used to exercise the statements *)

Module Fixture.

Definition unityAgent : string :=
  "UnityPlayer/2022.3.22f1 (UnityWebRequest/1.0, libcurl/8.5.0-DEV)".

Definition unityHeaders : gmap string string :=
  <["user-agent" := unityAgent]> (<["x-unity-version" := "2022.3.22f1"]> ∅).

Definition checkRequest (name : string) : Request :=
  mkRequest "GET" "/checkAdultStatus" unityHeaders
    (<["username" := QStr name]> (<["calledfrom" := QStr "loveworld"]> ∅)).

Definition alice : LimitedUser.t := LimitedUser.mk "usr_1" "Alice".
Definition aliceLower : LimitedUser.t := LimitedUser.mk "usr_2" "alice".
Definition alice2 : LimitedUser.t := LimitedUser.mk "usr_3" "Alice2".
Definition aliceTwin : LimitedUser.t := LimitedUser.mk "usr_4" "Alice".

(** An upstream whose search answers [hits] and whose profiles are
    verified exactly for [usr_1]. *)
Definition upstream (hits : list LimitedUser.t) : UsersApi :=
  mkUsersApi
    (fun _ _ _ => Ok hits)
    (fun userId =>
       Ok (User.mk userId "Alice"
             (if String.eqb userId "usr_1" then VStr "18+" else VStr "hidden"))).

Definition me : CurrentUser.t := CurrentUser.mk "usr_0" "Relay".

Definition apiOf (hits : list LimitedUser.t) : VRChatAPI.t :=
  VRChatAPI.mk (Some me) (upstream hits).

(** A world with a ready session, the last admission at 10000 and the
    clock at 10500. *)
Definition ready (hits : list LimitedUser.t) : World :=
  mkWorld (VRChatClient.mk (Some (apiOf hits)) true (Some me) None)
    (CooldownManager.mk 10000) 10500 [].

(** An error of the HTTP layer that is not a vrc-ts class: it carries the
    upstream's answer in [response.status]. *)
Definition gatewayDown : Thrown :=
  mkThrown None true true "Request failed with status code 503" None (Some (Some 503)).

(** The same failure wrapped by the client library. *)
Definition requestFailed : Thrown :=
  mkThrown (Some RequestError) true true "Service Unavailable" (Some (Some 503)) None.

(** Three environments in which [initialize] cannot succeed: no password,
    a login that throws a non-Error value, a login that leaves the api
    without a current user. *)
Definition library (outcome : VRChatAPI.t → VRChatAPI.t * option Thrown)
    (password : option string) : VRChatClient.Env :=
  VRChatClient.mkEnv (Some "relay") password None None None None
    (λ _, Ok (VRChatAPI.mk None (upstream []))) outcome.

Definition noPassword : VRChatClient.Env :=
  library (λ a, (a, None)) None.

Definition loginThrows : VRChatClient.Env :=
  library (λ a, (a, Some (mkThrown None false false "Invalid credentials" None None)))
    (Some "secret").

Definition loginWithoutUser : VRChatClient.Env :=
  library (λ a, (a, None)) (Some "secret").

(** Two requests arrive 500 ms and 600 ms after an admission at [t0] and
    are both suspended; their timers are due at the same instant. *)
Definition t0 : Z := 1700000000000.

Definition overlapping : list CooldownManager.Tick :=
  [ CooldownManager.Enter 0 t0; CooldownManager.Leave 0 t0;
    CooldownManager.Enter 1 (t0 + 500);
    CooldownManager.Enter 2 (t0 + 600);
    CooldownManager.Leave 1 (t0 + 3000);
    CooldownManager.Leave 2 (t0 + 3000) ].

(** The same three callers one after the other. *)
Definition oneByOne : list CooldownManager.Tick :=
  [ CooldownManager.Enter 0 t0; CooldownManager.Leave 0 t0;
    CooldownManager.Enter 1 (t0 + 500); CooldownManager.Leave 1 (t0 + 3000);
    CooldownManager.Enter 2 (t0 + 3000); CooldownManager.Leave 2 (t0 + 6000) ].

(** A framework that answers every error with a bare page. *)
Definition errorPage (e : Thrown) : Response :=
  mkResponse 500 (JStr "Internal Server Error").

End Fixture.

(** ** Further concrete values *)

Module Sample.

(** The library's wrapper around an upstream answer "418". *)
Definition teapot : Thrown :=
  mkThrown (Some RequestError) true true "I'm a teapot" (Some (Some 418)) None.

(** A library error that happens to carry an upstream status. *)
Definition sessionLost : Thrown :=
  mkThrown (Some UserNotAuthenticated) true true "Missing Credentials"
    (Some (Some 503)) (Some (Some 503)).

Definition sessionLostBare : Thrown :=
  mkThrown (Some UserNotAuthenticated) false false "Missing Credentials" None None.

(** A redirect surfacing as an HTTP error of the transport. *)
Definition redirected : Thrown :=
  mkThrown None true true "Request failed with status code 302" None (Some (Some 302)).

(** A connection failure reported by Node. *)
Definition refused : Thrown :=
  newError "connect ECONNREFUSED 127.0.0.1:443".

(** An environment in which the login handshake succeeds. *)
Definition loginOk : VRChatClient.Env :=
  Fixture.library (λ a, (VRChatAPI.mk (Some Fixture.me) (VRChatAPI.userApi a), None))
    (Some "secret").

(** The client after a successful start. *)
Definition started : VRChatClient.t :=
  (VRChatClient.initialize loginOk VRChatClient.initial).2.

(** An environment without a user name. *)
Definition noUsername : VRChatClient.Env :=
  VRChatClient.mkEnv (Some "") (Some "secret") None None None None
    (λ _, Ok (VRChatAPI.mk (Some Fixture.me) (Fixture.upstream [])))
    (λ a, (a, None)).

(** The upstream answering every search with "429 Too Many Requests". *)
Definition tooMany : Thrown :=
  mkThrown (Some RequestError) true true "Rate limit exceeded" (Some (Some 429)) None.

Definition busyApi : VRChatAPI.t :=
  VRChatAPI.mk (Some Fixture.me)
    (mkUsersApi (λ _ _ _, Throw tooMany)
       (λ userId, Ok (User.mk userId "Alice" (VStr "18+")))).

Definition busy : World :=
  mkWorld (VRChatClient.mk (Some busyApi) true (Some Fixture.me) None)
    (CooldownManager.mk 10000) 20000 [].

(** A health probe without any header. *)
Definition probe : Request := mkRequest "GET" "/health" ∅ ∅.

(** A health probe whose query holds an object with a [toString] entry,
    as [?x[toString]=1] is parsed by the extended query parser. *)
Definition spiked : Request :=
  mkRequest "GET" "/health" ∅ (<["x" := QObj [("toString", QStr "1")]]> ∅).

(** The error [express.json()] passes on for a malformed JSON body. *)
Definition badBody : Thrown :=
  mkThrown None true true "Unexpected token } in JSON at position 1"
    (Some (Some 400)) None.

End Sample.

Ltac unfold_m :=
  unfold mbind, mret, M_bind, M_ret, lift, emit, dateNow, sleep,
    readCooldown, writeCooldown, getApi in *.

Lemma waitForCooldown_run (w : World) :
  waitForCooldown w = (Ok tt, afterCooldown w).
Proof.
  unfold waitForCooldown, afterCooldown. unfold_m. cbn.
  destruct (CooldownManager.waitTime (now w) (cooldownManager w)); reflexivity.
Qed.

Lemma afterCooldown_client (w : World) :
  vrchatClient (afterCooldown w) = vrchatClient w.
Proof.
  unfold afterCooldown.
  destruct (CooldownManager.waitTime _ _); reflexivity.
Qed.

Lemma upstreamCalls_app (a b : list Event) :
  upstreamCalls (a ++ b) = upstreamCalls a ++ upstreamCalls b.
Proof. unfold upstreamCalls. apply List.filter_app. Qed.

Lemma afterCooldown_calls (w : World) :
  upstreamCalls (trace (afterCooldown w)) = upstreamCalls (trace w).
Proof.
  unfold afterCooldown.
  destruct (CooldownManager.waitTime _ _); cbn; [| reflexivity].
  rewrite upstreamCalls_app. cbn. apply app_nil_r.
Qed.

Lemma eqb_name_false (x name : string) : x ≠ name → String.eqb x name = false.
Proof. intros H. apply String.eqb_neq. exact H. Qed.

(** The scan skips every element before the first exact match. *)
Lemma findExactMatch_first api name pre c post w :
  Forall (λ x, LimitedUser.displayName x ≠ name) pre →
  LimitedUser.displayName c = name →
  findExactMatch api name (pre ++ c :: post) w
  = (match getUserById (VRChatAPI.userApi api) (LimitedUser.id c) with
     | Ok u => Ok (Some u)
     | Throw e => Throw e
     end,
     mkWorld (vrchatClient w) (cooldownManager w) (now w)
       (trace w ++ [EvGetUserById (LimitedUser.id c)])).
Proof.
  intros Hpre Hc. induction Hpre as [| x pre Hx _ IH]; simpl app; simpl findExactMatch.
  - rewrite Hc, String.eqb_refl. unfold callGetUserById. unfold_m. cbn.
    destruct (getUserById _ _); reflexivity.
  - rewrite (eqb_name_false _ _ Hx). exact IH.
Qed.

Lemma findExactMatch_none api name results w :
  noExactMatch name results →
  findExactMatch api name results w = (Ok None, w).
Proof.
  intros H. induction H as [| x l Hx _ IH]; simpl findExactMatch.
  - reflexivity.
  - rewrite (eqb_name_false _ _ Hx). exact IH.
Qed.

(** Up to the search, every run with a usable [username] and a ready
    session is the same. *)
Lemma tryCheckAdultStatus_searched req w name api :
  query req !! "username" = Some (QStr name) → name ≠ "" →
  VRChatClient.getApi (vrchatClient w) = Ok api →
  tryCheckAdultStatus req w
  = match searchAllUsers (VRChatAPI.userApi api) name 100 false with
    | Throw e => (Throw e, afterSearch name w)
    | Ok searchResults =>
        if Z.of_nat (length searchResults) =? 0
        then (Ok (mkResponse 404 (errorBody "User not found")), afterSearch name w)
        else
          match findExactMatch api name searchResults (afterSearch name w) with
          | (Ok None, w1) =>
              (Ok (mkResponse 404
                     (errorBody "User not found with exact displayName match")), w1)
          | (Ok (Some matchedUser), w1) =>
              (Ok (mkResponse 200
                     (JObj [("age-verified",
                             JStr (if strictEqStr (User.ageVerificationStatus matchedUser)
                                        AgeVerificationStatus.Verified_18_Plus
                                   then "true" else "false"));
                            ("username", JStr (User.displayName matchedUser))])), w1)
          | (Throw e, w1) => (Throw e, w1)
          end
    end.
Proof.
  intros Hq Hne Hapi. unfold tryCheckAdultStatus. rewrite Hq. cbn [truthy typeofString asString].
  rewrite (eqb_name_false _ _ Hne). cbn [negb orb].
  unfold mbind at 1. unfold M_bind at 1. rewrite waitForCooldown_run.
  unfold mbind at 1. unfold M_bind at 1. unfold getApi at 1.
  rewrite afterCooldown_client, Hapi.
  unfold callSearchAllUsers. unfold_m. cbn.
  fold (afterSearch name w).
  destruct (searchAllUsers _ _ _ _) as [results | e]; [| reflexivity].
  destruct (Z.of_nat (length results) =? 0); [reflexivity |].
  destruct (findExactMatch api name results (afterSearch name w)) as [[[u |] | e] w1];
    reflexivity.
Qed.

Lemma length_cons_nonzero {A} (pre : list A) (c : A) (post : list A) :
  (Z.of_nat (length (pre ++ c :: post)) =? 0) = false.
Proof. apply Z.eqb_neq. rewrite length_app. cbn [length]. lia. Qed.

(** A run that reaches a first exact match [c]: one search, then one
    profile request, for [c]. *)
Lemma checkAdultStatus_found req w name api results c :
  query req !! "username" = Some (QStr name) → name ≠ "" →
  VRChatClient.getApi (vrchatClient w) = Ok api →
  searchAllUsers (VRChatAPI.userApi api) name 100 false = Ok results →
  firstExactMatch name results c →
  checkAdultStatus req w
  = (match getUserById (VRChatAPI.userApi api) (LimitedUser.id c) with
     | Ok u => profileAnswer u
     | Throw e => errorAnswer e
     end,
     afterFetch name (LimitedUser.id c) w).
Proof.
  intros Hq Hne Hapi Hsearch (pre & post & -> & Hpre & Hc).
  unfold checkAdultStatus.
  rewrite (tryCheckAdultStatus_searched req w name api Hq Hne Hapi), Hsearch.
  rewrite length_cons_nonzero, (findExactMatch_first api name pre c post _ Hpre Hc).
  fold (afterFetch name (LimitedUser.id c) w).
  destruct (getUserById _ _) as [u | e].
  - unfold profileAnswer, AgeVerificationStatus.Verified_18_Plus.
    destruct (User.ageVerificationStatus u) as [| | b | z | s]; cbn [strictEqStr];
      try (rewrite bool_decide_eq_false_2 by discriminate; reflexivity).
    destruct (String.eqb_spec s "18+") as [-> | Hs].
    + rewrite bool_decide_eq_true_2 by reflexivity. reflexivity.
    + rewrite bool_decide_eq_false_2 by congruence. reflexivity.
  - unfold errorAnswer. destruct (ErrorHandler.handleVRChatError e). reflexivity.
Qed.

Lemma afterFetch_calls name userId w :
  upstreamCalls (trace (afterFetch name userId w))
  = upstreamCalls (trace w)
    ++ [EvSearchAllUsers name 100 false; EvGetUserById userId].
Proof.
  unfold afterFetch, afterSearch. cbn [trace].
  rewrite !upstreamCalls_app, afterCooldown_calls, <- app_assoc. reflexivity.
Qed.

(** ** The resolver *)

(** C1. Whatever list the search returns, the handler walks it in order,
    takes the first candidate whose display name equals the requested name
    exactly, requests the full profile for that candidate's identifier and
    for no other, and answers from that profile alone: the upstream calls of
    the request are the search followed by that single profile request. *)
Theorem checkAdultStatus_scan_and_stop req w name api results c :
  query req !! "username" = Some (QStr name) → name ≠ "" →
  VRChatClient.getApi (vrchatClient w) = Ok api →
  searchAllUsers (VRChatAPI.userApi api) name 100 false = Ok results →
  firstExactMatch name results c →
  upstreamCalls (trace (checkAdultStatus req w).2)
  = upstreamCalls (trace w)
    ++ [EvSearchAllUsers name 100 false; EvGetUserById (LimitedUser.id c)]
  ∧ (checkAdultStatus req w).1
    = match getUserById (VRChatAPI.userApi api) (LimitedUser.id c) with
      | Ok u => profileAnswer u
      | Throw e => errorAnswer e
      end.
Proof.
  intros Hq Hne Hapi Hsearch Hc.
  rewrite (checkAdultStatus_found req w name api results c Hq Hne Hapi Hsearch Hc).
  split; [apply afterFetch_calls | reflexivity].
Qed.

Lemma checkAdultStatus_scan_and_stop_witness :
  let hits := [Fixture.aliceLower; Fixture.alice; Fixture.alice2; Fixture.aliceTwin] in
  upstreamCalls (trace (checkAdultStatus (Fixture.checkRequest "Alice") (Fixture.ready hits)).2)
  = [EvSearchAllUsers "Alice" 100 false; EvGetUserById "usr_1"]
  ∧ (checkAdultStatus (Fixture.checkRequest "Alice") (Fixture.ready hits)).1
    = mkResponse 200 (JObj [("age-verified", JStr "true"); ("username", JStr "Alice")]).
Proof.
  intros hits.
  apply (checkAdultStatus_scan_and_stop (Fixture.checkRequest "Alice") (Fixture.ready hits)
           "Alice" (Fixture.apiOf hits) hits Fixture.alice).
  - reflexivity.
  - discriminate.
  - reflexivity.
  - reflexivity.
  - exists [Fixture.aliceLower], [Fixture.alice2; Fixture.aliceTwin].
    split; [reflexivity | split; [| reflexivity]].
    repeat constructor. discriminate.
Defined.

(** C2. For a resolved profile the answer carries ["age-verified"] equal to
    the string ["true"] exactly when the profile's verification field is the
    string ["18+"]; for every other value of the field, ["hidden"] and an
    absent field included, it is the string ["false"]. *)
Theorem checkAdultStatus_verified_iff_18_plus req w name api results c u :
  query req !! "username" = Some (QStr name) → name ≠ "" →
  VRChatClient.getApi (vrchatClient w) = Ok api →
  searchAllUsers (VRChatAPI.userApi api) name 100 false = Ok results →
  firstExactMatch name results c →
  getUserById (VRChatAPI.userApi api) (LimitedUser.id c) = Ok u →
  ∃ flag,
    (checkAdultStatus req w).1
    = mkResponse 200 (JObj [("age-verified", JStr flag);
                            ("username", JStr (User.displayName u))])
    ∧ (flag = "true" ↔ User.ageVerificationStatus u = VStr "18+")
    ∧ (flag = "false" ↔ User.ageVerificationStatus u ≠ VStr "18+").
Proof.
  intros Hq Hne Hapi Hsearch Hc Hu.
  rewrite (checkAdultStatus_found req w name api results c Hq Hne Hapi Hsearch Hc), Hu.
  unfold profileAnswer. cbn [fst].
  destruct (decide (User.ageVerificationStatus u = VStr "18+")) as [Hv | Hv].
  - exists "true". rewrite bool_decide_eq_true_2 by exact Hv.
    split; [reflexivity |]. split; split; intros H; try done.
  - exists "false". rewrite bool_decide_eq_false_2 by exact Hv.
    split; [reflexivity |]. split; split; intros H; try done.
Qed.

Lemma checkAdultStatus_verified_iff_18_plus_witness :
  let hits := [Fixture.aliceLower; Fixture.alice; Fixture.alice2] in
  let u := User.mk "usr_1" "Alice" (VStr "18+") in
  ∃ flag,
    (checkAdultStatus (Fixture.checkRequest "Alice") (Fixture.ready hits)).1
    = mkResponse 200 (JObj [("age-verified", JStr flag);
                            ("username", JStr (User.displayName u))])
    ∧ (flag = "true" ↔ User.ageVerificationStatus u = VStr "18+")
    ∧ (flag = "false" ↔ User.ageVerificationStatus u ≠ VStr "18+").
Proof.
  intros hits u.
  apply (checkAdultStatus_verified_iff_18_plus (Fixture.checkRequest "Alice")
           (Fixture.ready hits) "Alice" (Fixture.apiOf hits) hits Fixture.alice u).
  - reflexivity.
  - discriminate.
  - reflexivity.
  - reflexivity.
  - exists [Fixture.aliceLower], [Fixture.alice2].
    split; [reflexivity | split; [| reflexivity]].
    repeat constructor. discriminate.
  - reflexivity.
Defined.

(** The reading of C4 that the code refutes: an empty search result and a
    search result without an exact match are answered with different
    messages, although both answers have status 404. *)
Lemma not_found_messages_differ :
  let none := (checkAdultStatus (Fixture.checkRequest "Alice") (Fixture.ready [])).1 in
  let similar :=
    (checkAdultStatus (Fixture.checkRequest "Alice")
       (Fixture.ready [Fixture.aliceLower; Fixture.alice2])).1 in
  status none = 404 ∧ status similar = 404
  ∧ body none = errorBody "User not found"
  ∧ body similar = errorBody "User not found with exact displayName match"
  ∧ none ≠ similar.
Proof.
  cbv zeta. repeat split; try reflexivity. vm_compute. discriminate.
Qed.

(** C4, as the code has it. Both not-found outcomes answer 404 and request
    no profile; the message is ["User not found"] when the search returns no
    candidate and ["User not found with exact displayName match"] when it
    returns candidates none of which matches exactly. *)
Theorem checkAdultStatus_not_found req w name api results :
  query req !! "username" = Some (QStr name) → name ≠ "" →
  VRChatClient.getApi (vrchatClient w) = Ok api →
  searchAllUsers (VRChatAPI.userApi api) name 100 false = Ok results →
  noExactMatch name results →
  checkAdultStatus req w
  = (mkResponse 404
       (errorBody match results with
                  | [] => "User not found"
                  | _ :: _ => "User not found with exact displayName match"
                  end),
     afterSearch name w).
Proof.
  intros Hq Hne Hapi Hsearch Hnone. unfold checkAdultStatus.
  rewrite (tryCheckAdultStatus_searched req w name api Hq Hne Hapi), Hsearch.
  destruct results as [| x rest]; [reflexivity |].
  change (x :: rest) with ([] ++ x :: rest) at 1. rewrite length_cons_nonzero.
  rewrite (findExactMatch_none api name (x :: rest) _ Hnone). reflexivity.
Qed.

Lemma checkAdultStatus_not_found_witness :
  checkAdultStatus (Fixture.checkRequest "Alice") (Fixture.ready [])
  = (mkResponse 404 (errorBody "User not found"),
     afterSearch "Alice" (Fixture.ready []))
  ∧ checkAdultStatus (Fixture.checkRequest "Alice")
      (Fixture.ready [Fixture.aliceLower; Fixture.alice2])
    = (mkResponse 404 (errorBody "User not found with exact displayName match"),
       afterSearch "Alice" (Fixture.ready [Fixture.aliceLower; Fixture.alice2])).
Proof.
  split.
  - apply (checkAdultStatus_not_found (Fixture.checkRequest "Alice") (Fixture.ready [])
             "Alice" (Fixture.apiOf []) []).
    + reflexivity.
    + discriminate.
    + reflexivity.
    + reflexivity.
    + constructor.
  - apply (checkAdultStatus_not_found (Fixture.checkRequest "Alice")
             (Fixture.ready [Fixture.aliceLower; Fixture.alice2])
             "Alice" (Fixture.apiOf [Fixture.aliceLower; Fixture.alice2])
             [Fixture.aliceLower; Fixture.alice2]).
    + reflexivity.
    + discriminate.
    + reflexivity.
    + reflexivity.
    + repeat constructor; discriminate.
Defined.

Lemma tryCheckAdultStatus_refused req w :
  negb (truthy (query req !! "username"))
  || negb (typeofString (query req !! "username")) = true →
  tryCheckAdultStatus req w
  = (Ok (mkResponse 400
           (errorBody "Username query parameter is required and must be a string")), w).
Proof. intros H. unfold tryCheckAdultStatus. rewrite H. reflexivity. Qed.

Lemma unusable_username (v : option QueryVal) :
  v = None ∨ typeofString v = false →
  negb (truthy v) || negb (typeofString v) = true.
Proof. intros [-> | ->]; [reflexivity | apply orb_true_r]. Qed.

(** C8. When the [username] query value is absent or is not a string, the
    handler answers 400 and leaves the world as it found it: no search, no
    profile request, no timer wait, and the cooldown timestamp untouched. *)
Theorem checkAdultStatus_bad_username req w :
  query req !! "username" = None ∨ typeofString (query req !! "username") = false →
  checkAdultStatus req w
  = (mkResponse 400
       (errorBody "Username query parameter is required and must be a string"), w).
Proof.
  intros H. unfold checkAdultStatus.
  rewrite (tryCheckAdultStatus_refused req w (unusable_username _ H)). reflexivity.
Qed.

Lemma checkAdultStatus_bad_username_witness :
  let missing := mkRequest "GET" "/checkAdultStatus" Fixture.unityHeaders
                   (<["calledfrom" := QStr "loveworld"]> ∅) in
  let repeated := mkRequest "GET" "/checkAdultStatus" Fixture.unityHeaders
                    (<["username" := QArr [QStr "Alice"; QStr "Bob"]]>
                       (<["calledfrom" := QStr "loveworld"]> ∅)) in
  checkAdultStatus missing (Fixture.ready [Fixture.alice])
  = (mkResponse 400
       (errorBody "Username query parameter is required and must be a string"),
     Fixture.ready [Fixture.alice])
  ∧ checkAdultStatus repeated (Fixture.ready [Fixture.alice])
    = (mkResponse 400
         (errorBody "Username query parameter is required and must be a string"),
       Fixture.ready [Fixture.alice]).
Proof.
  intros missing repeated. split.
  - apply (checkAdultStatus_bad_username missing). left. reflexivity.
  - apply (checkAdultStatus_bad_username repeated). right. reflexivity.
Defined.

(** An empty [username] string is refused in the same way. *)
Lemma checkAdultStatus_empty_username req w :
  query req !! "username" = Some (QStr "") →
  checkAdultStatus req w
  = (mkResponse 400
       (errorBody "Username query parameter is required and must be a string"), w).
Proof.
  intros H. unfold checkAdultStatus.
  rewrite (tryCheckAdultStatus_refused req w); [reflexivity |].
  rewrite H. reflexivity.
Qed.

(** ** The validation middleware *)

Lemma includes_In (xs : list string) (x : string) :
  includes xs x = true ↔ In x xs.
Proof.
  unfold includes. rewrite existsb_exists. split.
  - intros (y & Hin & Heq). apply String.eqb_eq in Heq. subst y. exact Hin.
  - intros Hin. exists x. split; [exact Hin | apply String.eqb_refl].
Qed.

(** A header test of the middleware passes exactly for an allow-listed
    value. *)
Lemma header_check_passes (allowed : list string) (h : option string) :
  falsyStr h || negb (includes allowed (default "" h)) = false →
  ∃ v, h = Some v ∧ In v allowed.
Proof.
  intros H. apply orb_false_elim in H as [Hf Hin].
  destruct h as [v |]; [| discriminate].
  exists v. split; [reflexivity |].
  apply includes_In. apply negb_false_iff in Hin. exact Hin.
Qed.

Lemma calledFrom_check_passes (v : option QueryVal) :
  negb (truthy v) || negb (typeofString v)
  || negb (includes ALLOWED_CALLED_FROM (asString v)) = false →
  ∃ tag, v = Some (QStr tag) ∧ In tag ALLOWED_CALLED_FROM.
Proof.
  intros H. apply orb_false_elim in H as [H Hin].
  apply orb_false_elim in H as [_ Hty].
  destruct v as [[s | items | fields] |]; try discriminate.
  exists s. split; [reflexivity |].
  apply includes_In. apply negb_false_iff in Hin. exact Hin.
Qed.

Lemma validate_rejects (req : Request) :
  path req ≠ "/health" → failsAdmission req →
  validate req = Some (mkResponse 404 (errorBody "Not found")).
Proof.
  intros Hpath Hfail. unfold validate.
  rewrite (eqb_name_false _ _ Hpath).
  destruct (falsyStr (get req "user-agent") || _) eqn:Hua; [reflexivity |].
  destruct (falsyStr (get req "x-unity-version") || _) eqn:Hunity; [reflexivity |].
  destruct (negb (truthy (calledFromOf req)) || _ || _) eqn:Hcf; [reflexivity |].
  exfalso. destruct Hfail as [Hn | [Hn | Hn]]; apply Hn.
  - exact (header_check_passes _ _ Hua).
  - exact (header_check_passes _ _ Hunity).
  - exact (calledFrom_check_passes _ Hcf).
Qed.

(** The middleware lets through what passes the three checks, and every
    request for [/health]. *)
Lemma allowed_not_empty (allowed : list string) (x : string) :
  includes allowed x = true → includes allowed "" = false →
  String.eqb x "" = false.
Proof.
  intros Hx Hempty. destruct (String.eqb_spec x "") as [-> |]; [congruence | reflexivity].
Qed.

Lemma validate_admits (req : Request) :
  userAgentAllowed req → unityVersionAllowed req → calledFromAllowed req →
  validate req = None.
Proof.
  intros (ua & Hua & Hin1) (v & Hv & Hin2) (tag & Htag & Hin3). unfold validate.
  destruct (String.eqb (path req) "/health"); [reflexivity |].
  apply includes_In in Hin1, Hin2, Hin3.
  rewrite Hua, Hv, Htag. unfold falsyStr, default, truthy, typeofString, asString, id.
  rewrite Hin1, Hin2, Hin3.
  rewrite (allowed_not_empty _ ua Hin1), (allowed_not_empty _ v Hin2),
    (allowed_not_empty _ tag Hin3) by reflexivity.
  reflexivity.
Qed.

Lemma validate_health_exempt (req : Request) :
  path req = "/health" → validate req = None.
Proof. intros H. unfold validate. rewrite H. reflexivity. Qed.

(** C5. A request for any path but [/health] that fails one of the three
    admission checks is answered 404 with the body [{"error":"Not found"}],
    whichever check it is, and the world is left as it was: no later layer,
    session, cooldown or upstream call is involved. *)
Theorem rejected_requests_get_not_found
    (toISOString : Z → string) (matchPath : string → string → bool)
    (crash : Thrown → Response) (parsed : option Thrown)
    (req : Request) (w : World) :
  path req ≠ "/health" → failsAdmission req →
  handle (app toISOString matchPath crash parsed) req w
  = (Some (mkResponse 404 (JObj [("error", JStr "Not found")])), w).
Proof.
  intros Hpath Hfail. unfold app. cbn [handle]. unfold validationMiddleware.
  rewrite (validate_rejects req Hpath Hfail). reflexivity.
Qed.

Lemma rejected_requests_get_not_found_witness :
  let req := mkRequest "GET" "/checkAdultStatus" Fixture.unityHeaders
               (<["username" := QStr "Alice"]> (<["calledfrom" := QStr "otherworld"]> ∅)) in
  handle (app (λ _, "2024-01-01T00:00:00.000Z") String.eqb Fixture.errorPage None) req
    (Fixture.ready [Fixture.alice])
  = (Some (mkResponse 404 (JObj [("error", JStr "Not found")])),
     Fixture.ready [Fixture.alice]).
Proof.
  intros req.
  apply (rejected_requests_get_not_found _ _ _ _ req).
  - discriminate.
  - right. right. intros (tag & Htag & Hin).
    vm_compute in Htag. injection Htag as <-.
    cbn in Hin. destruct Hin as [H | [H | []]]; discriminate.
Defined.

(** Through the whole stack: an admitted GET request routed to the
    /checkAdultStatus handler with an unusable [username], which the
    logging and body-parsing layers let pass, is answered 400 and changes
    nothing. *)
Lemma app_bad_username
    (toISOString : Z → string) (matchPath : string → string → bool)
    (crash : Thrown → Response) (req : Request) (w : World) :
  validate req = None → method req = "GET" → loggable req = true →
  matchPath "/health" (path req) = false →
  matchPath "/checkAdultStatus" (path req) = true →
  query req !! "username" = None ∨ typeofString (query req !! "username") = false →
  handle (app toISOString matchPath crash None) req w
  = (Some (mkResponse 400
             (errorBody "Username query parameter is required and must be a string")), w).
Proof.
  intros Hv Hm Hlog Hh Hc Hbad. unfold app. cbn [handle].
  unfold validationMiddleware, loggingMiddleware, jsonMiddleware, appGet, servedByGet.
  rewrite Hv, Hlog, Hm, Hh, Hc, String.eqb_refl. unfold andb, orb, checkAdultStatus.
  rewrite (tryCheckAdultStatus_refused req w (unusable_username _ Hbad)). reflexivity.
Qed.

Lemma calledFromOf_query (req : Request) (s : string) (h : option string) :
  query req !! "calledfrom" = Some (QStr s) → s ≠ "" →
  calledFromOf (withCalledFromHeader h req) = Some (QStr s).
Proof.
  intros Hq Hne. unfold calledFromOf, withCalledFromHeader, orElse. cbn [query].
  rewrite Hq. cbn [truthy]. rewrite (eqb_name_false _ _ Hne). reflexivity.
Qed.

Lemma get_other_header (req : Request) (h : option string) (name : string) :
  name ≠ "x-called-from" →
  get (withCalledFromHeader h req) name = get req name.
Proof.
  intros Hne. unfold get, withCalledFromHeader. cbn [headers].
  apply lookup_partial_alter_ne. congruence.
Qed.

Lemma includes_elem_of (xs : list string) (x : string) :
  includes xs x = bool_decide (x ∈ xs).
Proof.
  destruct (includes xs x) eqn:H.
  - symmetry. apply bool_decide_eq_true. apply list_elem_of_In.
    apply includes_In. exact H.
  - symmetry. apply bool_decide_eq_false. intros Hin.
    apply list_elem_of_In, includes_In in Hin. congruence.
Qed.

(** With both headers on their lists, the caller tag alone decides. *)
Lemma validate_by_tag (req : Request) :
  path req ≠ "/health" → userAgentAllowed req → unityVersionAllowed req →
  validate req
  = match calledFromOf req with
    | Some (QStr tag) =>
        if bool_decide (tag ∈ ALLOWED_CALLED_FROM) then None
        else Some (mkResponse 404 (JObj [("error", JStr "Not found")]))
    | _ => Some (mkResponse 404 (JObj [("error", JStr "Not found")]))
    end.
Proof.
  intros Hpath (ua & Hua & Hin1) (v & Hv & Hin2). unfold validate.
  rewrite (eqb_name_false _ _ Hpath).
  apply includes_In in Hin1, Hin2.
  rewrite Hua, Hv. unfold falsyStr, default, id.
  rewrite Hin1, Hin2.
  rewrite (allowed_not_empty _ ua Hin1), (allowed_not_empty _ v Hin2) by reflexivity.
  cbn [negb orb].
  destruct (calledFromOf req) as [[tag | items | fields] |]; try reflexivity.
  cbn [truthy typeofString asString negb orb]. rewrite includes_elem_of.
  destruct (String.eqb_spec tag "") as [-> | Hne]; [reflexivity |].
  cbn [negb orb]. destruct (bool_decide (tag ∈ ALLOWED_CALLED_FROM)); reflexivity.
Qed.

Lemma withCalledFromHeader_allowed (req : Request) (h : option string) :
  (userAgentAllowed req → userAgentAllowed (withCalledFromHeader h req))
  ∧ (unityVersionAllowed req → unityVersionAllowed (withCalledFromHeader h req)).
Proof.
  split; intros (v & Hv & Hin); exists v;
    (split; [rewrite get_other_header by discriminate; exact Hv | exact Hin]).
Qed.

(** C9. In the validation middleware a non-empty [calledfrom] query string
    decides alone: the [x-called-from] header may be changed or removed
    without changing the outcome, and with both other checks passed the
    request is admitted exactly when the query value is on the list of
    callers, whatever the header holds. A [calledfrom] query value that is
    an array or an object is answered 404 whatever the header holds. An
    empty query string makes the header the caller tag: with both other
    checks passed the request is admitted exactly when the header is
    present and on the list. *)
Theorem calledfrom_query_before_header (req : Request) :
  (∀ s h, query req !! "calledfrom" = Some (QStr s) → s ≠ "" →
          calledFromOf (withCalledFromHeader h req) = Some (QStr s)
          ∧ validate (withCalledFromHeader h req) = validate req
          ∧ (path req ≠ "/health" → userAgentAllowed req → unityVersionAllowed req →
             validate (withCalledFromHeader h req)
             = if bool_decide (s ∈ ALLOWED_CALLED_FROM) then None
               else Some (mkResponse 404 (JObj [("error", JStr "Not found")]))))
  ∧ (∀ h, path req ≠ "/health" →
          (∃ items, query req !! "calledfrom" = Some (QArr items))
          ∨ (∃ fields, query req !! "calledfrom" = Some (QObj fields)) →
          validate (withCalledFromHeader h req)
          = Some (mkResponse 404 (JObj [("error", JStr "Not found")])))
  ∧ (query req !! "calledfrom" = Some (QStr "") →
     calledFromOf req = QStr <$> get req "x-called-from"
     ∧ (path req ≠ "/health" → userAgentAllowed req → unityVersionAllowed req →
        validate req
        = match get req "x-called-from" with
          | Some tag =>
              if bool_decide (tag ∈ ALLOWED_CALLED_FROM) then None
              else Some (mkResponse 404 (JObj [("error", JStr "Not found")]))
          | None => Some (mkResponse 404 (JObj [("error", JStr "Not found")]))
          end)).
Proof.
  split; [| split].
  - intros s h Hq Hne.
    pose proof (calledFromOf_query req s h Hq Hne) as Hwith.
    assert (Hself : calledFromOf req = Some (QStr s)).
    { unfold calledFromOf, orElse. rewrite Hq. cbn [truthy].
      rewrite (eqb_name_false _ _ Hne). reflexivity. }
    split; [exact Hwith |]. split.
    + unfold validate. rewrite Hwith, Hself.
      rewrite !get_other_header by discriminate. reflexivity.
    + intros Hpath Hua Hunity.
      rewrite (validate_by_tag (withCalledFromHeader h req) Hpath
                 (proj1 (withCalledFromHeader_allowed req h) Hua)
                 (proj2 (withCalledFromHeader_allowed req h) Hunity)).
      rewrite Hwith. reflexivity.
  - intros h Hpath Hq. apply validate_rejects; [exact Hpath |].
    right. right. intros (tag & Htag & _).
    unfold calledFromOf, withCalledFromHeader, orElse in Htag. cbn [query] in Htag.
    destruct Hq as [[items Hq] | [fields Hq]]; rewrite Hq in Htag; discriminate.
  - intros Hq.
    assert (Hcf : calledFromOf req = QStr <$> get req "x-called-from").
    { unfold calledFromOf, orElse. rewrite Hq. reflexivity. }
    split; [exact Hcf |]. intros Hpath Hua Hunity.
    rewrite (validate_by_tag req Hpath Hua Hunity), Hcf.
    destruct (get req "x-called-from"); reflexivity.
Qed.

Lemma calledfrom_query_before_header_witness :
  let tagged := Fixture.checkRequest "Alice" in
  let stranger := mkRequest "GET" "/checkAdultStatus" Fixture.unityHeaders
                    (<["calledfrom" := QStr "otherworld"]> ∅) in
  let repeated := mkRequest "GET" "/checkAdultStatus" Fixture.unityHeaders
                    (<["calledfrom" := QArr [QStr "loveworld"; QStr "loveworld"]]> ∅) in
  let blank := mkRequest "GET" "/checkAdultStatus"
                 (<["x-called-from" := "maxieworld"]> Fixture.unityHeaders)
                 (<["calledfrom" := QStr ""]> ∅) in
  (calledFromOf (withCalledFromHeader (Some "otherworld") tagged) = Some (QStr "loveworld")
   ∧ validate (withCalledFromHeader (Some "otherworld") tagged) = validate tagged
   ∧ validate (withCalledFromHeader (Some "otherworld") tagged) = None)
  ∧ validate (withCalledFromHeader (Some "loveworld") stranger)
    = Some (mkResponse 404 (JObj [("error", JStr "Not found")]))
  ∧ validate (withCalledFromHeader (Some "loveworld") repeated)
    = Some (mkResponse 404 (JObj [("error", JStr "Not found")]))
  ∧ calledFromOf blank = QStr <$> get blank "x-called-from"
  ∧ validate blank = None.
Proof.
  intros tagged stranger repeated blank.
  assert (Hua : ∀ q, userAgentAllowed
                       (mkRequest "GET" "/checkAdultStatus" Fixture.unityHeaders q)).
  { intros q. exists Fixture.unityAgent. split; [reflexivity | right; left; reflexivity]. }
  assert (Hunity : ∀ q, unityVersionAllowed
                          (mkRequest "GET" "/checkAdultStatus" Fixture.unityHeaders q)).
  { intros q. exists "2022.3.22f1". split; [reflexivity | right; left; reflexivity]. }
  split; [| split; [| split; [| split]]].
  - destruct (proj1 (calledfrom_query_before_header tagged) "loveworld"
                (Some "otherworld") eq_refl ltac:(discriminate)) as (H1 & H2 & H3).
    split; [exact H1 | split; [exact H2 |]].
    exact (H3 ltac:(discriminate) (Hua _) (Hunity _)).
  - destruct (proj1 (calledfrom_query_before_header stranger) "otherworld"
                (Some "loveworld") eq_refl ltac:(discriminate)) as (_ & _ & H3).
    exact (H3 ltac:(discriminate) (Hua _) (Hunity _)).
  - apply (proj1 (proj2 (calledfrom_query_before_header repeated)) (Some "loveworld")).
    + discriminate.
    + left. exists [QStr "loveworld"; QStr "loveworld"]. reflexivity.
  - exact (proj1 (proj2 (proj2 (calledfrom_query_before_header blank)) eq_refl)).
  - refine (proj2 (proj2 (proj2 (calledfrom_query_before_header blank)) eq_refl)
              ltac:(discriminate) _ _).
    + exists Fixture.unityAgent. split; [reflexivity | right; left; reflexivity].
    + exists "2022.3.22f1". split; [reflexivity | right; left; reflexivity].
Defined.

(** ** The health route *)

(** C10. [isReady] answers true only when a current user is stored, so an
    answer of /health with status 200 always names that user: its
    [authenticatedUser] field is the stored user's display name, never
    null. *)
Theorem health_ok_names_user :
  (∀ c, VRChatClient.isReady c = true → is_Some (VRChatClient.getCurrentUser c))
  ∧ (∀ (toISOString : Z → string) req w,
       status (health toISOString req w).1 = 200 →
       ∃ u, VRChatClient.getCurrentUser (vrchatClient w) = Some u
            ∧ body (health toISOString req w).1
              = JObj [("status", JStr "healthy");
                      ("timestamp", JStr (toISOString (now w)));
                      ("vrchatClientReady", JBool true);
                      ("authenticatedUser", JStr (CurrentUser.displayName u))]).
Proof.
  assert (Hready : ∀ c, VRChatClient.isReady c = true →
                        is_Some (VRChatClient.getCurrentUser c)).
  { intros c H. unfold VRChatClient.isReady in H.
    apply andb_true_iff in H as [_ H]. apply bool_decide_eq_true in H. exact H. }
  split; [exact Hready |].
  intros toISOString req w H. unfold health in *.
  destruct (VRChatClient.isReady (vrchatClient w)) eqn:Hr; cbn [negb] in *.
  - destruct (Hready _ Hr) as [u Hu]. exists u. rewrite Hu. split; reflexivity.
  - cbn in H. discriminate.
Qed.

Lemma health_ok_names_user_witness :
  let w := Fixture.ready [] in
  let req := mkRequest "GET" "/health" ∅ ∅ in
  is_Some (VRChatClient.getCurrentUser (vrchatClient w))
  ∧ ∃ u, VRChatClient.getCurrentUser (vrchatClient w) = Some u
         ∧ body (health (λ _, "2024-01-01T00:00:00.000Z") req w).1
           = JObj [("status", JStr "healthy");
                   ("timestamp", JStr "2024-01-01T00:00:00.000Z");
                   ("vrchatClientReady", JBool true);
                   ("authenticatedUser", JStr (CurrentUser.displayName u))].
Proof.
  intros w req. split.
  - apply (proj1 health_ok_names_user (vrchatClient w)). reflexivity.
  - apply (proj2 health_ok_names_user (λ _, "2024-01-01T00:00:00.000Z") req w). reflexivity.
Defined.

(** ** The error translator *)

(** The reading of C6 that the code refutes: a failure that is not a
    [RequestError] but carries the upstream status 503 is answered with
    503 itself, not with 502. *)
Lemma upstream_5xx_passed_through :
  ErrorHandler.getStatusCode Fixture.gatewayDown = Some 503
  ∧ (ErrorHandler.handleVRChatError Fixture.gatewayDown).1 = 503
  ∧ (ErrorHandler.handleVRChatError Fixture.gatewayDown).1 ≠ 502.
Proof. repeat split. discriminate. Qed.

Lemma instanceOf_plain (e : Thrown) (c : ErrorClass) :
  cls e = None → instanceOf e c = false.
Proof. intros H. unfold instanceOf. rewrite H. reflexivity. Qed.

(** C6, as the code has it. A [RequestError] whose status code is 500 or
    more is answered 502. A failure that is none of the library's error
    classes but carries a status code is answered with that code whenever
    it lies between 400 and 599, so a 5xx arriving that way is passed on
    unchanged. *)
Theorem upstream_5xx_translation :
  (∀ e z, instanceOf e RequestError = true →
          ErrorHandler.readStatusCode e = Some z → 500 ≤ z →
          (ErrorHandler.handleVRChatError e).1 = 502)
  ∧ (∀ e z, cls e = None → ErrorHandler.isAxiosLikeError e = true →
            ErrorHandler.getStatusCode e = Some z → 400 ≤ z < 600 →
            (ErrorHandler.handleVRChatError e).1 = z).
Proof.
  split.
  - intros e z Hcls Hz Hge. unfold ErrorHandler.handleVRChatError.
    rewrite Hcls, Hz. cbn [fst].
    unfold ErrorHandler.requestErrorStatus, ErrorHandler.numEq, ErrorHandler.numGe,
      ErrorHandler.numLt.
    rewrite !(proj2 (Z.eqb_neq z _)) by lia.
    rewrite (proj2 (Z.leb_le 400 z)), (proj2 (Z.ltb_ge z 500)),
      (proj2 (Z.leb_le 500 z)) by lia.
    reflexivity.
  - intros e z Hcls Hax Hz Hrange. unfold ErrorHandler.handleVRChatError.
    rewrite !(instanceOf_plain e _ Hcls). cbn [orb]. rewrite Hax, Hz.
    rewrite (proj2 (Z.eqb_neq z 0)), (proj2 (Z.leb_le 400 z)),
      (proj2 (Z.ltb_lt z 600)) by lia.
    reflexivity.
Qed.

Lemma upstream_5xx_translation_witness :
  (ErrorHandler.handleVRChatError Fixture.requestFailed).1 = 502
  ∧ (ErrorHandler.handleVRChatError Fixture.gatewayDown).1 = 503.
Proof.
  split.
  - apply (proj1 upstream_5xx_translation Fixture.requestFailed 503).
    + reflexivity.
    + reflexivity.
    + lia.
  - apply (proj2 upstream_5xx_translation Fixture.gatewayDown 503).
    + reflexivity.
    + reflexivity.
    + reflexivity.
    + lia.
Defined.

(** ** The session *)

Lemma initialize_throw env st err st' :
  VRChatClient.initialize env st = (Throw err, st') →
  VRChatClient.isAuthenticated st' = false
  ∧ VRChatClient.initializationError st' = Some err.
Proof.
  unfold VRChatClient.initialize.
  destruct (VRChatClient.isAuthenticated st && _); [discriminate |].
  destruct (VRChatClient.tryInitialize env st) as [[[] | e] st1]; [discriminate |].
  intros H. injection H as <- <-. split; reflexivity.
Qed.

Lemma unauthenticated_not_ready st :
  VRChatClient.isAuthenticated st = false →
  VRChatClient.isReady st = false
  ∧ VRChatClient.getApi st = Throw VRChatClient.notAuthenticated.
Proof.
  intros H. unfold VRChatClient.isReady, VRChatClient.getApi. rewrite H.
  split; [reflexivity |]. destruct (VRChatClient.api st); reflexivity.
Qed.

Lemma initializeAll_all_failed envs : ∀ st,
  VRChatClient.isAuthenticated st = false →
  forallb VRChatClient.failed (VRChatClient.initializeAll envs st).1 = true →
  VRChatClient.isAuthenticated (VRChatClient.initializeAll envs st).2 = false.
Proof.
  induction envs as [| env rest IH]; intros st Hst Hall; cbn [VRChatClient.initializeAll] in *.
  - exact Hst.
  - destruct (VRChatClient.initialize env st) as [r st1] eqn:Hinit.
    destruct (VRChatClient.initializeAll rest st1) as [rs st2] eqn:Hrest.
    cbn [fst snd forallb] in *. apply andb_true_iff in Hall as [Hr Hrs].
    destruct r as [[] | err]; [discriminate |].
    specialize (IH st1). rewrite Hrest in IH. apply IH; [| exact Hrs].
    exact (proj1 (initialize_throw env st err st1 Hinit)).
Qed.

(** C7. As long as no call of [initialize] has succeeded, [isReady] answers
    false and [getApi] throws the not-authenticated error; and every call
    of [initialize] that fails throws the reason it stores as the
    initialization error, leaving [isReady] false and [getApi] throwing. *)
Theorem never_initialized_not_ready :
  (∀ envs,
     forallb VRChatClient.failed
       (VRChatClient.initializeAll envs VRChatClient.initial).1 = true →
     VRChatClient.isReady (VRChatClient.initializeAll envs VRChatClient.initial).2 = false
     ∧ VRChatClient.getApi (VRChatClient.initializeAll envs VRChatClient.initial).2
       = Throw (newError "VRChat client is not initialized or authenticated"))
  ∧ (∀ env st err st',
       VRChatClient.initialize env st = (Throw err, st') →
       VRChatClient.getInitializationError st' = Some err
       ∧ VRChatClient.isReady st' = false
       ∧ VRChatClient.getApi st'
         = Throw (newError "VRChat client is not initialized or authenticated")).
Proof.
  split.
  - intros envs Hall. apply unauthenticated_not_ready.
    apply initializeAll_all_failed; [reflexivity | exact Hall].
  - intros env st err st' Hinit.
    destruct (initialize_throw env st err st' Hinit) as [Hauth Herr].
    split; [exact Herr |]. apply unauthenticated_not_ready. exact Hauth.
Qed.

Lemma never_initialized_not_ready_witness :
  let envs := [Fixture.noPassword; Fixture.loginThrows; Fixture.loginWithoutUser] in
  let st := (VRChatClient.initializeAll envs VRChatClient.initial).2 in
  (VRChatClient.isReady st = false
   ∧ VRChatClient.getApi st
     = Throw (newError "VRChat client is not initialized or authenticated"))
  ∧ (VRChatClient.getInitializationError st
     = Some (newError "Authentication failed: currentUser is null")
     ∧ VRChatClient.isReady st = false
     ∧ VRChatClient.getApi st
       = Throw (newError "VRChat client is not initialized or authenticated")).
Proof.
  intros envs st. split.
  - apply (proj1 never_initialized_not_ready envs). reflexivity.
  - apply (proj2 never_initialized_not_ready Fixture.loginWithoutUser
             (VRChatClient.initializeAll [Fixture.noPassword; Fixture.loginThrows]
                VRChatClient.initial).2).
    reflexivity.
Defined.

(** ** The cooldown gate *)

(** C3. Two requests that call [waitForCooldown] while an earlier admission
    is less than 3000 ms old are both suspended; each computes its delay
    from the same stored timestamp, and when the timers fire both store
    the same time. The schedule is one the event loop can produce, and its
    admissions [t0; t0 + 3000; t0 + 3000] are not 3000 ms apart. *)
Theorem overlapping_callers_admitted_together :
  CooldownManager.admitted
    <$> CooldownManager.run Fixture.overlapping (CooldownManager.boot Fixture.t0)
  = Some [Fixture.t0; Fixture.t0 + 3000; Fixture.t0 + 3000]
  ∧ CooldownManager.spaced [Fixture.t0; Fixture.t0 + 3000; Fixture.t0 + 3000] = false.
Proof. split; vm_compute; reflexivity. Qed.

Lemma spaced_snoc (ts : list Z) (n : Z) :
  CooldownManager.spaced ts = true →
  (∀ t, last ts = Some t → t + CooldownManager.cooldownMs ≤ n) →
  CooldownManager.spaced (ts ++ [n]) = true.
Proof.
  induction ts as [| a rest IH]; intros Hs Hlast; [reflexivity |].
  destruct rest as [| b rest'].
  - cbn. rewrite andb_true_r. apply Z.leb_le. apply Hlast. reflexivity.
  - cbn [CooldownManager.spaced app] in *.
    apply andb_true_iff in Hs as [Hab Hrest].
    apply andb_true_iff. split; [exact Hab |].
    apply IH; [exact Hrest |]. intros t Ht. apply Hlast. exact Ht.
Qed.

Lemma quiet_boot (start : Z) : quiet (CooldownManager.boot start).
Proof. split; try reflexivity. intros t H. discriminate. Qed.

(** One whole call, entered and left with nothing in between, keeps the
    loop quiet. *)
Lemma call_keeps_quiet (c : nat) (t t' : Z) (l l1 l2 : CooldownManager.Loop) :
  quiet l →
  CooldownManager.step (CooldownManager.Enter c t) l = Some l1 →
  CooldownManager.step (CooldownManager.Leave c t') l1 = Some l2 →
  quiet l2.
Proof.
  intros [Hrun Htim Hsp Hlast] Henter Hleave.
  cbn [CooldownManager.step] in Henter.
  destruct (bool_decide _ && _ && _) eqn:Hguard; [| discriminate].
  apply andb_true_iff in Hguard as [Hguard _].
  apply andb_true_iff in Hguard as [_ Hclock]. apply Z.leb_le in Hclock.
  unfold CooldownManager.waitTime in Henter.
  assert (Hafter : ∀ due, CooldownManager.lastRequestTime (CooldownManager.gate l)
                          + CooldownManager.cooldownMs ≤ due → due ≤ t' →
                   quiet (CooldownManager.mkLoop
                            (CooldownManager.record t' (CooldownManager.gate l)) None ∅ t'
                            (CooldownManager.admitted l ++ [t']))).
  { intros due Hdue Hle. split; cbn; try reflexivity.
    - apply spaced_snoc; [exact Hsp |]. intros u Hu. rewrite (Hlast u Hu). lia.
    - intros u Hu. rewrite last_snoc in Hu. congruence. }
  destruct (_ <? _) eqn:Hlt; injection Henter as <-;
    cbn [CooldownManager.step CooldownManager.running CooldownManager.timers
         CooldownManager.clock CooldownManager.gate CooldownManager.admitted] in Hleave.
  - rewrite lookup_insert_eq in Hleave.
    destruct (t <=? t'); [| discriminate].
    destruct (_ <=? t') eqn:Hdue; [| discriminate]. apply Z.leb_le in Hdue.
    injection Hleave as <-. rewrite Htim, delete_insert_eq, delete_empty.
    apply (Hafter (t + (CooldownManager.cooldownMs
                        - (t - CooldownManager.lastRequestTime (CooldownManager.gate l)))));
      [lia | exact Hdue].
  - apply Z.ltb_ge in Hlt.
    destruct (t <=? t') eqn:Htt; [| discriminate]. apply Z.leb_le in Htt.
    rewrite bool_decide_eq_true_2 in Hleave by reflexivity.
    injection Hleave as <-. rewrite Htim.
    apply (Hafter t'); lia.
Qed.

(** Callers that never overlap are admitted at least 3000 ms apart. *)
Theorem serial_callers_spaced (ks : list CooldownManager.Tick) :
  CooldownManager.serial ks = true →
  ∀ l l', quiet l → CooldownManager.run ks l = Some l' → quiet l'.
Proof.
  induction ks as [ks IH] using (induction_ltof1 _ (@length _)). unfold ltof in IH.
  intros Hserial l l' Hq Hrun.
  destruct ks as [| [c t | c t] rest]; cbn [CooldownManager.serial] in Hserial.
  - cbn in Hrun. injection Hrun as <-. exact Hq.
  - destruct rest as [| [c' t' | c' t'] rest']; try discriminate.
    apply andb_true_iff in Hserial as [Hc Hrest]. apply bool_decide_eq_true in Hc. subst c'.
    cbn [CooldownManager.run] in Hrun.
    destruct (CooldownManager.step (CooldownManager.Enter c t) l) as [l1 |] eqn:H1;
      [| discriminate].
    destruct (CooldownManager.step (CooldownManager.Leave c t') l1) as [l2 |] eqn:H2;
      [| discriminate].
    apply (IH rest' ltac:(cbn; lia) Hrest l2 l'); [| exact Hrun].
    exact (call_keeps_quiet c t t' l l1 l2 Hq H1 H2).
  - discriminate.
Qed.

Lemma serial_callers_spaced_example :
  CooldownManager.admitted
    <$> CooldownManager.run Fixture.oneByOne (CooldownManager.boot Fixture.t0)
  = Some [Fixture.t0; Fixture.t0 + 3000; Fixture.t0 + 6000].
Proof. vm_compute. reflexivity. Qed.

(** X10. From a fresh gate, any run of calls that do not overlap ends with
    admissions at least 3000 ms apart. *)
Corollary serial_callers_spaced_from_boot (ks : list CooldownManager.Tick)
    (start : Z) (l : CooldownManager.Loop) :
  CooldownManager.serial ks = true →
  CooldownManager.run ks (CooldownManager.boot start) = Some l →
  CooldownManager.spaced (CooldownManager.admitted l) = true.
Proof.
  intros Hserial Hrun.
  exact (quiet_spaced l
           (serial_callers_spaced ks Hserial _ l (quiet_boot start) Hrun)).
Qed.

(** * Further properties of the code *)

(** ** errorHandler.ts *)

Lemma requestErrorStatus_table (v : option Z) :
  ErrorHandler.requestErrorStatus v
  = match v with
    | Some z =>
        if (400 <=? z) && (z <? 500) then z
        else if 500 <=? z then 502 else 500
    | None => 500
    end.
Proof.
  destruct v as [z |]; [| reflexivity].
  unfold ErrorHandler.requestErrorStatus, ErrorHandler.numEq, ErrorHandler.numGe,
    ErrorHandler.numLt, default, from_option, id.
  destruct (Z.eqb_spec z 401) as [-> |]; [reflexivity |].
  destruct (Z.eqb_spec z 403) as [-> |]; [reflexivity |].
  destruct (Z.eqb_spec z 404) as [-> |]; [reflexivity |].
  destruct (Z.eqb_spec z 429) as [-> |]; [reflexivity |].
  reflexivity.
Qed.

(** X2. For a [RequestError] the translator needs no special cases: the
    status is the upstream code when that is 400..499, 502 when it is 500
    or more, and 500 when it is below 400 or missing; the body always
    carries the error's message, the raw upstream code and the kind
    ["RequestError"], even when the message looks like a network error. *)
Theorem request_error_table (e : Thrown) :
  instanceOf e RequestError = true →
  ErrorHandler.handleVRChatError e
  = (match ErrorHandler.readStatusCode e with
     | Some z =>
         if (400 <=? z) && (z <? 500) then z
         else if 500 <=? z then 502 else 500
     | None => 500
     end,
     ErrorResponse.mk (message e) (ErrorHandler.readStatusCode e) (Some "RequestError")).
Proof.
  intros H. unfold ErrorHandler.handleVRChatError. rewrite H.
  rewrite requestErrorStatus_table. reflexivity.
Qed.

Lemma request_error_table_witness :
  ErrorHandler.handleVRChatError Sample.teapot
  = (418, ErrorResponse.mk "I'm a teapot" (Some 418) (Some "RequestError")).
Proof. apply (request_error_table Sample.teapot). reflexivity. Defined.

Lemma requestErrorStatus_range (v : option Z) :
  400 ≤ ErrorHandler.requestErrorStatus v < 600.
Proof.
  rewrite requestErrorStatus_table. destruct v as [z |]; [| lia].
  destruct (400 <=? z) eqn:H1, (z <? 500) eqn:H2, (500 <=? z) eqn:H3; cbn [andb]; lia.
Qed.

Lemma handleGeneric_range (e : Thrown) :
  400 ≤ (ErrorHandler.handleGeneric e).1 < 600
  ∧ is_Some (ErrorResponse.errorType (ErrorHandler.handleGeneric e).2).
Proof.
  unfold ErrorHandler.handleGeneric.
  destruct (isError e); [destruct (ErrorHandler.networkMessage _) |];
    cbn; (split; [lia | eexists; reflexivity]).
Qed.

Lemma handleVRChatError_range (e : Thrown) :
  400 ≤ (ErrorHandler.handleVRChatError e).1 < 600
  ∧ is_Some (ErrorResponse.errorType (ErrorHandler.handleVRChatError e).2).
Proof.
  unfold ErrorHandler.handleVRChatError.
  destruct (instanceOf e RequestError).
  { cbn [fst snd ErrorResponse.errorType].
    split; [apply requestErrorStatus_range | eexists; reflexivity]. }
  destruct (instanceOf e UserNotAuthenticated); [cbn; split; [lia | eexists; reflexivity] |].
  destruct (instanceOf e BadRequestParameter); [cbn; split; [lia | eexists; reflexivity] |].
  destruct (instanceOf e InvalidUserAgent); [cbn; split; [lia | eexists; reflexivity] |].
  destruct (instanceOf e TOTPRequired || instanceOf e EmailOtpRequired);
    [cbn; split; [lia | eexists; reflexivity] |].
  destruct (instanceOf e CookiesExpired || instanceOf e CookiesNotFound);
    [cbn; split; [lia | eexists; reflexivity] |].
  destruct (ErrorHandler.isAxiosLikeError e); [| apply handleGeneric_range].
  destruct (ErrorHandler.getStatusCode e) as [z |]; [| apply handleGeneric_range].
  destruct (z =? 0); [apply handleGeneric_range |].
  cbn [fst snd ErrorResponse.errorType]. split; [| eexists; reflexivity].
  destruct (400 <=? z) eqn:H1, (z <? 600) eqn:H2; cbn [andb]; lia.
Qed.

(** X1. Whatever is thrown, the translator answers with a status between
    400 and 599 and names an error kind; it never produces a success or
    redirect status. *)
Theorem translated_status_is_an_error (e : Thrown) :
  400 ≤ (ErrorHandler.handleVRChatError e).1 < 600
  ∧ is_Some (ErrorResponse.errorType (ErrorHandler.handleVRChatError e).2).
Proof. exact (handleVRChatError_range e). Qed.

Lemma instanceOf_class (e : Thrown) (c d : ErrorClass) :
  cls e = Some c → instanceOf e d = bool_decide (c = d).
Proof.
  intros H. unfold instanceOf. rewrite H.
  destruct (decide (c = d)) as [-> | Hne].
  - rewrite !bool_decide_eq_true_2; reflexivity.
  - rewrite !bool_decide_eq_false_2; [reflexivity | exact Hne | congruence].
Qed.

(** X3. An error of one of the library's other classes is translated by
    its class alone: 401 for [UserNotAuthenticated], 400 for
    [BadRequestParameter], 500 for the rest, with the class as error kind;
    a status code the error may carry, in [statusCode] or in
    [response.status], plays no part, nor does anything but its message. *)
Theorem library_class_decides (e e' : Thrown) (c : ErrorClass) :
  cls e = Some c → c ≠ RequestError →
  cls e' = Some c → message e' = message e →
  ErrorHandler.handleVRChatError e' = ErrorHandler.handleVRChatError e
  ∧ (ErrorHandler.handleVRChatError e).1
    = match c with
      | UserNotAuthenticated => 401
      | BadRequestParameter => 400
      | _ => 500
      end
  ∧ ErrorResponse.errorType (ErrorHandler.handleVRChatError e).2 = Some (className c).
Proof.
  intros Hc Hne Hc' Hmsg. unfold ErrorHandler.handleVRChatError.
  rewrite !(instanceOf_class e c _ Hc), !(instanceOf_class e' c _ Hc'), Hmsg.
  destruct c; try congruence; cbn; repeat split; reflexivity.
Qed.

Lemma library_class_decides_witness :
  ErrorHandler.handleVRChatError Sample.sessionLostBare
  = ErrorHandler.handleVRChatError Sample.sessionLost
  ∧ (ErrorHandler.handleVRChatError Sample.sessionLost).1 = 401
  ∧ ErrorResponse.errorType (ErrorHandler.handleVRChatError Sample.sessionLost).2
    = Some "UserNotAuthenticated".
Proof.
  apply (library_class_decides Sample.sessionLost Sample.sessionLostBare
           UserNotAuthenticated).
  - reflexivity.
  - discriminate.
  - reflexivity.
  - reflexivity.
Defined.

(** X4. A failure that is none of the library's classes and carries a
    non-zero status outside 400..599 is answered 500, while the body still
    reports the status it carried, with kind ["HttpError"]. *)
Theorem odd_status_becomes_500 (e : Thrown) (z : Z) :
  cls e = None → ErrorHandler.isAxiosLikeError e = true →
  ErrorHandler.getStatusCode e = Some z → z ≠ 0 → ¬ (400 ≤ z < 600) →
  ErrorHandler.handleVRChatError e
  = (500, ErrorResponse.mk (if isError e then message e else "HTTP request failed")
            (Some z) (Some "HttpError")).
Proof.
  intros Hcls Hax Hz Hnz Hout. unfold ErrorHandler.handleVRChatError.
  rewrite !(instanceOf_plain e _ Hcls). cbn [orb]. rewrite Hax, Hz.
  rewrite (proj2 (Z.eqb_neq z 0) Hnz).
  destruct (400 <=? z) eqn:H1, (z <? 600) eqn:H2; cbn [andb]; try reflexivity. lia.
Qed.

Lemma odd_status_becomes_500_witness :
  ErrorHandler.handleVRChatError Sample.redirected
  = (500, ErrorResponse.mk "Request failed with status code 302" (Some 302)
            (Some "HttpError")).
Proof.
  apply (odd_status_becomes_500 Sample.redirected 302).
  - reflexivity.
  - reflexivity.
  - reflexivity.
  - lia.
  - lia.
Defined.

(** *** Searching a message for a word *)

Lemma append_cons (c : Ascii.ascii) (s t : string) :
  String c s +:+ t = String c (s +:+ t).
Proof. reflexivity. Qed.

Lemma append_nil (t : string) : "" +:+ t = t.
Proof. reflexivity. Qed.

Lemma substring_prefix_here (n post : string) :
  substring 0 (String.length n) (n +:+ post) = n.
Proof.
  induction n as [| c n IH].
  - rewrite append_nil. destruct post; reflexivity.
  - rewrite append_cons. cbn [String.length substring]. rewrite IH. reflexivity.
Qed.

Lemma substring_skip_prefix (pre s : string) (m : nat) :
  substring (String.length pre) m (pre +:+ s) = substring 0 m s.
Proof.
  induction pre as [| c pre IH].
  - rewrite append_nil. reflexivity.
  - rewrite append_cons. cbn [String.length substring]. exact IH.
Qed.

Lemma substring_is_prefix (h : string) : ∀ (k : nat) (n : string),
  substring 0 k h = n → String.length n = k → ∃ post, h = n +:+ post.
Proof.
  induction h as [| c h IH]; intros k n Hsub Hlen.
  - destruct k; cbn in Hsub; subst n; exists ""; reflexivity.
  - destruct k as [| k]; cbn in Hsub; subst n.
    + exists (String c h). reflexivity.
    + cbn in Hlen. injection Hlen as Hlen.
      destruct (IH k _ eq_refl Hlen) as [post Hpost].
      exists post. rewrite append_cons, <- Hpost. reflexivity.
Qed.

Lemma substring_is_infix (m : nat) : ∀ (h : string) (k : nat) (n : string),
  substring m k h = n → String.length n = k → ∃ pre post, h = pre +:+ n +:+ post.
Proof.
  induction m as [| m IH]; intros h k n Hsub Hlen.
  - destruct (substring_is_prefix h k n Hsub Hlen) as [post Hpost].
    exists "", post. exact Hpost.
  - destruct h as [| c h]; cbn in Hsub.
    + subst n. exists "", "". reflexivity.
    + destruct (IH h k n Hsub Hlen) as (pre & post & Hh).
      exists (String c pre), post. rewrite append_cons, <- Hh. reflexivity.
Qed.

(** [strIncludes] is the search for a word anywhere in the text. *)
Lemma strIncludes_spec (h n : string) :
  n ≠ "" →
  strIncludes h n = true ↔ ∃ pre post, h = pre +:+ n +:+ post.
Proof.
  intros Hne. unfold strIncludes. split.
  - destruct (index 0 n h) as [m |] eqn:Hidx; [| discriminate]. intros _.
    apply index_correct1 in Hidx.
    exact (substring_is_infix m h (String.length n) n Hidx eq_refl).
  - intros (pre & post & ->).
    destruct (index 0 n (pre +:+ n +:+ post)) as [m |] eqn:Hidx; [reflexivity |].
    exfalso.
    apply (index_correct3 0 (String.length pre) _ _ Hidx Hne); [lia |].
    rewrite substring_skip_prefix. apply substring_prefix_here.
Qed.

Lemma networkMessage_spec (msg : string) :
  ErrorHandler.networkMessage msg = true
  ↔ ∃ word pre post, In word networkWords ∧ msg = pre +:+ word +:+ post.
Proof.
  unfold ErrorHandler.networkMessage, networkWords.
  rewrite !orb_true_iff, !strIncludes_spec by discriminate. split.
  - intros [[(pre & post & H) | (pre & post & H)] | (pre & post & H)];
      eexists _, pre, post; (split; [| exact H]); cbn; auto.
  - intros (word & pre & post & Hin & H). cbn in Hin.
    destruct Hin as [<- | [<- | [<- | []]]]; eauto.
Qed.

Lemma handle_without_status (e : Thrown) :
  cls e = None → noUsableStatus e →
  ErrorHandler.handleVRChatError e = ErrorHandler.handleGeneric e.
Proof.
  intros Hcls Hno. unfold ErrorHandler.handleVRChatError.
  rewrite !(instanceOf_plain e _ Hcls). cbn [orb].
  destruct Hno as [H | [H | H]]; rewrite H; [reflexivity | |].
  - destruct (ErrorHandler.isAxiosLikeError e); reflexivity.
  - destruct (ErrorHandler.isAxiosLikeError e); reflexivity.
Qed.

(** X5. A failure that is none of the library's classes and yields no
    status is judged by its message alone. An Error whose message contains
    one of the words network, ECONNREFUSED or timeout anywhere, in exactly
    that spelling, is answered 503 with a fixed text that hides the
    message; any other Error is answered 500 with its own message; a value
    that is not an Error is answered 500 with a fixed text. *)
Theorem failures_without_status (e : Thrown) :
  cls e = None → noUsableStatus e →
  (isError e = true →
   (∃ word pre post, In word networkWords ∧ message e = pre +:+ word +:+ post) →
   ErrorHandler.handleVRChatError e
   = (503, ErrorResponse.mk "VRChat API is unavailable" None (Some "NetworkError")))
  ∧ (isError e = true →
     ¬ (∃ word pre post, In word networkWords ∧ message e = pre +:+ word +:+ post) →
     ErrorHandler.handleVRChatError e
     = (500, ErrorResponse.mk (message e) None (Some "Error")))
  ∧ (isError e = false →
     ErrorHandler.handleVRChatError e
     = (500, ErrorResponse.mk "An unknown error occurred" None (Some "UnknownError"))).
Proof.
  intros Hcls Hno. rewrite (handle_without_status e Hcls Hno).
  unfold ErrorHandler.handleGeneric. split; [| split].
  - intros -> Hword. apply networkMessage_spec in Hword. rewrite Hword. reflexivity.
  - intros -> Hword.
    destruct (ErrorHandler.networkMessage (message e)) eqn:Hn; [| reflexivity].
    exfalso. apply Hword. apply networkMessage_spec. exact Hn.
  - intros ->. reflexivity.
Qed.

Lemma failures_without_status_witness :
  ErrorHandler.handleVRChatError Sample.refused
  = (503, ErrorResponse.mk "VRChat API is unavailable" None (Some "NetworkError"))
  ∧ ErrorHandler.handleVRChatError VRChatClient.notAuthenticated
    = (500, ErrorResponse.mk "VRChat client is not initialized or authenticated" None
              (Some "Error"))
  ∧ ErrorHandler.handleVRChatError
      (mkThrown None false false "Invalid credentials" None None)
    = (500, ErrorResponse.mk "An unknown error occurred" None (Some "UnknownError")).
Proof.
  split; [| split].
  - apply (proj1 (failures_without_status Sample.refused eq_refl (or_introl eq_refl)));
      [reflexivity |].
    exists "ECONNREFUSED", "connect ", " 127.0.0.1:443". split; [| reflexivity].
    right. left. reflexivity.
  - apply (proj1 (proj2 (failures_without_status VRChatClient.notAuthenticated eq_refl
                           (or_introl eq_refl)))); [reflexivity |].
    intros Hword. apply networkMessage_spec in Hword. discriminate Hword.
  - apply (proj2 (proj2 (failures_without_status
                           (mkThrown None false false "Invalid credentials" None None)
                           eq_refl (or_introl eq_refl)))).
    reflexivity.
Defined.

(** ** cooldownManager.ts *)

Lemma getTimeRemaining_waitTime (now : Z) (self : CooldownManager.t) :
  CooldownManager.getTimeRemaining now self
  = Z.max 0 (CooldownManager.lastRequestTime self + 3000 - now)
  ∧ CooldownManager.waitTime now self
    = if 0 <? CooldownManager.getTimeRemaining now self
      then Some (CooldownManager.getTimeRemaining now self)
      else None.
Proof.
  unfold CooldownManager.getTimeRemaining, CooldownManager.waitTime,
    CooldownManager.cooldownMs.
  destruct (0 <? 3000 - (now - CooldownManager.lastRequestTime self)) eqn:H1,
           (now - CooldownManager.lastRequestTime self <? 3000) eqn:H2;
    try lia; rewrite ?H1; split; try reflexivity; lia.
Qed.

(** X6. [getTimeRemaining] is the time still missing to 3000 ms since the
    stored timestamp, never negative, and [waitForCooldown] suspends
    exactly when it is positive, for exactly that long. *)
Theorem getTimeRemaining_is_the_wait (now : Z) (self : CooldownManager.t) :
  CooldownManager.getTimeRemaining now self
  = Z.max 0 (CooldownManager.lastRequestTime self + 3000 - now)
  ∧ CooldownManager.waitTime now self
    = if 0 <? CooldownManager.getTimeRemaining now self
      then Some (CooldownManager.getTimeRemaining now self)
      else None.
Proof. exact (getTimeRemaining_waitTime now self). Qed.

(** X7. A single caller of [waitForCooldown] sleeps for what
    [getTimeRemaining] reports, not at all when that is 0, and then stores
    the clock; the stored time is at least 3000 ms after the one it
    replaces, and neither the session nor earlier events are touched. *)
Theorem waitForCooldown_sleeps_the_remaining_time (w : World) :
  let remaining := CooldownManager.getTimeRemaining (now w) (cooldownManager w) in
  waitForCooldown w
  = (Ok tt,
     mkWorld (vrchatClient w) (CooldownManager.mk (now w + remaining))
       (now w + remaining)
       (trace w ++ if 0 <? remaining then [EvSleep remaining] else []))
  ∧ CooldownManager.lastRequestTime (cooldownManager w) + 3000 ≤ now w + remaining.
Proof.
  intros remaining. rewrite waitForCooldown_run. unfold afterCooldown.
  destruct (getTimeRemaining_waitTime (now w) (cooldownManager w)) as [Hmax Hwait].
  fold remaining in Hmax, Hwait. rewrite Hwait.
  split; [| lia].
  destruct (0 <? remaining) eqn:Hpos; [reflexivity |].
  apply Z.ltb_ge in Hpos. replace remaining with 0 by lia.
  rewrite Z.add_0_r, app_nil_r. reflexivity.
Qed.

Lemma StronglySorted_snoc (ts : list Z) (n : Z) :
  StronglySorted Z.le ts → Forall (λ a, a ≤ n) ts → StronglySorted Z.le (ts ++ [n]).
Proof.
  intros Hs Hall. induction Hs as [| a rest Hrest IH Ha]; cbn.
  - repeat constructor.
  - apply Forall_cons in Hall as [Han Hall].
    constructor; [apply IH; exact Hall |].
    apply Forall_app. split; [exact Ha | repeat constructor; exact Han].
Qed.

Lemma sane_boot (start : Z) : 0 ≤ start → sane (CooldownManager.boot start).
Proof.
  intros H. split; cbn.
  - exact H.
  - constructor.
  - intros a Ha. inversion Ha.
  - intros c due Hc. rewrite lookup_empty in Hc. discriminate.
Qed.

Lemma sane_after_leave (l : CooldownManager.Loop) (n : Z) (ts : gmap nat Z) :
  sane l → CooldownManager.clock l ≤ n →
  (∀ c due, ts !! c = Some due → ∃ c', CooldownManager.timers l !! c' = Some due) →
  sane (CooldownManager.mkLoop (CooldownManager.record n (CooldownManager.gate l)) None
          ts n (CooldownManager.admitted l ++ [n])).
Proof.
  intros [Hclock Hsorted Hlatest Htimers] Hn Hts. split; cbn.
  - lia.
  - apply StronglySorted_snoc; [exact Hsorted |].
    apply Forall_forall. intros a Ha. specialize (Hlatest a Ha). lia.
  - intros a Ha. apply elem_of_app in Ha as [Ha | Ha].
    + specialize (Hlatest a Ha). lia.
    + apply list_elem_of_singleton in Ha. lia.
  - intros c due Hc. destruct (Hts c due Hc) as [c' Hc'].
    specialize (Htimers c' due Hc'). lia.
Qed.

Lemma step_sane (k : CooldownManager.Tick) (l l' : CooldownManager.Loop) :
  sane l → CooldownManager.step k l = Some l' → sane l'.
Proof.
  intros Hs Hstep. pose proof Hs as [Hclock Hsorted Hlatest Htimers].
  destruct k as [c n | c n]; cbn [CooldownManager.step] in Hstep.
  - destruct (bool_decide _ && _ && _) eqn:Hguard; [| discriminate].
    apply andb_true_iff in Hguard as [Hguard _].
    apply andb_true_iff in Hguard as [_ Hn]. apply Z.leb_le in Hn.
    unfold CooldownManager.waitTime, CooldownManager.cooldownMs in Hstep.
    destruct (_ <? _) eqn:Hlt; injection Hstep as <-; split; cbn; try assumption; try lia.
    intros c' due Hc'. apply lookup_insert_Some in Hc' as [[_ <-] | [_ Hc']].
    + unfold CooldownManager.cooldownMs. lia.
    + exact (Htimers c' due Hc').
  - destruct (CooldownManager.clock l <=? n) eqn:Hn; [| discriminate].
    apply Z.leb_le in Hn.
    destruct (CooldownManager.running l) as [r |].
    + destruct (bool_decide (r = c)); [| discriminate]. injection Hstep as <-.
      apply sane_after_leave; [exact Hs | exact Hn | eauto].
    + destruct (CooldownManager.timers l !! c) as [due |] eqn:Hc; [| discriminate].
      destruct (due <=? n); [| discriminate]. injection Hstep as <-.
      apply sane_after_leave; [exact Hs | exact Hn |].
      intros c' due' Hc'. apply lookup_delete_Some in Hc' as [_ Hc']. eauto.
Qed.

Lemma run_sane (ks : list CooldownManager.Tick) : ∀ l l',
  sane l → CooldownManager.run ks l = Some l' → sane l'.
Proof.
  induction ks as [| k ks IH]; intros l l' Hs Hrun; cbn [CooldownManager.run] in Hrun.
  - injection Hrun as <-. exact Hs.
  - destruct (CooldownManager.step k l) as [l1 |] eqn:Hstep; [| discriminate].
    exact (IH l1 l' (step_sane k l l1 Hs Hstep) Hrun).
Qed.

(** X8. Whatever the schedule, overlapping callers included, the stored
    timestamp never goes back: the values written to [lastRequestTime] are
    in non-decreasing order, none exceeds the one stored last, and that one
    is not ahead of the clock. *)
Theorem stored_timestamp_never_goes_back
    (ks : list CooldownManager.Tick) (start : Z) (l : CooldownManager.Loop) :
  0 ≤ start →
  CooldownManager.run ks (CooldownManager.boot start) = Some l →
  StronglySorted Z.le (CooldownManager.admitted l)
  ∧ Forall (λ a, a ≤ CooldownManager.lastRequestTime (CooldownManager.gate l))
      (CooldownManager.admitted l)
  ∧ CooldownManager.lastRequestTime (CooldownManager.gate l) ≤ CooldownManager.clock l.
Proof.
  intros Hstart Hrun.
  destruct (run_sane ks _ l (sane_boot start Hstart) Hrun) as [Hclock Hsorted Hlatest _].
  split; [exact Hsorted | split; [| exact Hclock]].
  apply Forall_forall. exact Hlatest.
Qed.

Lemma stored_timestamp_never_goes_back_witness :
  ∃ l, CooldownManager.run Fixture.overlapping (CooldownManager.boot Fixture.t0) = Some l
       ∧ StronglySorted Z.le (CooldownManager.admitted l)
       ∧ Forall (λ a, a ≤ CooldownManager.lastRequestTime (CooldownManager.gate l))
           (CooldownManager.admitted l)
       ∧ CooldownManager.lastRequestTime (CooldownManager.gate l)
         ≤ CooldownManager.clock l.
Proof.
  eexists. split; [vm_compute; reflexivity |].
  apply (stored_timestamp_never_goes_back Fixture.overlapping Fixture.t0).
  - unfold Fixture.t0. lia.
  - vm_compute. reflexivity.
Defined.

(** X9. The gate does not queue: whatever the schedule, every suspended
    caller's timer is due no later than 3000 ms after the timestamp stored
    last, so all callers waiting at an admission may proceed within the
    3000 ms that follow it. *)
Theorem suspended_callers_are_due_together
    (ks : list CooldownManager.Tick) (start : Z) (l : CooldownManager.Loop)
    (c : nat) (due : Z) :
  0 ≤ start →
  CooldownManager.run ks (CooldownManager.boot start) = Some l →
  CooldownManager.timers l !! c = Some due →
  due ≤ CooldownManager.lastRequestTime (CooldownManager.gate l) + 3000.
Proof.
  intros Hstart Hrun Hc.
  exact (sane_timers l (run_sane ks _ l (sane_boot start Hstart) Hrun) c due Hc).
Qed.

Lemma suspended_callers_are_due_together_witness :
  let ks := [CooldownManager.Enter 0 Fixture.t0; CooldownManager.Leave 0 Fixture.t0;
             CooldownManager.Enter 1 (Fixture.t0 + 500);
             CooldownManager.Enter 2 (Fixture.t0 + 600)] in
  ∃ l, CooldownManager.run ks (CooldownManager.boot Fixture.t0) = Some l
       ∧ CooldownManager.timers l !! 2%nat = Some (Fixture.t0 + 3000)
       ∧ Fixture.t0 + 3000
         ≤ CooldownManager.lastRequestTime (CooldownManager.gate l) + 3000.
Proof.
  intros ks. eexists. split; [vm_compute; reflexivity |].
  split; [vm_compute; reflexivity |].
  apply (suspended_callers_are_due_together ks Fixture.t0 _ 2%nat).
  - unfold Fixture.t0. lia.
  - vm_compute. reflexivity.
  - vm_compute. reflexivity.
Defined.

Lemma serial_callers_spaced_from_boot_witness :
  ∃ l, CooldownManager.run Fixture.oneByOne (CooldownManager.boot Fixture.t0) = Some l
       ∧ CooldownManager.spaced (CooldownManager.admitted l) = true.
Proof.
  eexists. split; [vm_compute; reflexivity |].
  apply (serial_callers_spaced_from_boot Fixture.oneByOne Fixture.t0).
  - reflexivity.
  - vm_compute. reflexivity.
Defined.

(** ** vrchatClient.ts *)

(** The two ways in which [initialize] returns normally. *)
Lemma initialize_ok env st r st' :
  VRChatClient.initialize env st = (Ok r, st') →
  (VRChatClient.isAuthenticated st = true ∧ is_Some (VRChatClient.api st) ∧ st' = st)
  ∨ (VRChatClient.isAuthenticated st && bool_decide (is_Some (VRChatClient.api st)) = false
     ∧ falsyStr (VRChatClient.VRCHAT_USERNAME env) = false
     ∧ falsyStr (VRChatClient.VRCHAT_PASSWORD env) = false
     ∧ ∃ created a u,
         VRChatClient.newVRChatAPI env
           (VRChatClient.mkConfig
              (default "" (VRChatClient.VRCHAT_USERNAME env))
              (default "" (VRChatClient.VRCHAT_PASSWORD env))
              (VRChatClient.orDefault (VRChatClient.USER_AGENT env)
                 "VRChatProxyAdultCheck/1.0.0")
              (VRChatClient.VRCHAT_2FA_SECRET env)
              (negb (bool_decide (VRChatClient.USE_COOKIES env = Some "false")))
              (VRChatClient.orDefault (VRChatClient.COOKIES_PATH env) "./cookies.json"))
         = Ok created
         ∧ VRChatClient.login env created = (a, None)
         ∧ VRChatAPI.currentUser a = Some u
         ∧ st' = VRChatClient.mk (Some a) true (Some u) None).
Proof.
  unfold VRChatClient.initialize.
  destruct (VRChatClient.isAuthenticated st && _) eqn:Hdone.
  - intros H. injection H as _ <-. left.
    apply andb_true_iff in Hdone as [Ha Hapi]. apply bool_decide_eq_true in Hapi.
    repeat split; assumption.
  - intros H. right. split; [reflexivity |].
    unfold VRChatClient.tryInitialize in H.
    destruct (falsyStr (VRChatClient.VRCHAT_USERNAME env)) eqn:Hu; [discriminate |].
    destruct (falsyStr (VRChatClient.VRCHAT_PASSWORD env)) eqn:Hp; [discriminate |].
    cbn [orb] in H. split; [reflexivity | split; [reflexivity |]].
    destruct (VRChatClient.newVRChatAPI env _) as [created | e] eqn:Hnew; [| discriminate].
    destruct (VRChatClient.login env created) as [a thrown] eqn:Hlogin.
    destruct thrown as [e |]; [discriminate |].
    destruct (VRChatAPI.currentUser a) as [u |] eqn:Hcu; [| discriminate].
    injection H as _ <-. exists created, a, u. repeat split; assumption.
Qed.

Lemma initialize_ok_ready env st r st' :
  VRChatClient.initialize env st = (Ok r, st') →
  VRChatClient.isAuthenticated st' = true ∧ is_Some (VRChatClient.api st').
Proof.
  intros H. destruct (initialize_ok env st r st' H)
    as [(Ha & Hapi & ->) | (_ & _ & _ & created & a & u & _ & _ & _ & ->)].
  - split; assumption.
  - split; [reflexivity | eexists; reflexivity].
Qed.

Lemma initialize_noop env st :
  VRChatClient.isAuthenticated st = true → is_Some (VRChatClient.api st) →
  VRChatClient.initialize env st = (Ok tt, st).
Proof.
  intros Ha Hapi. unfold VRChatClient.initialize.
  rewrite Ha, bool_decide_eq_true_2 by exact Hapi. reflexivity.
Qed.

(** X11. [initialize] is idempotent: once a call has returned normally,
    every further call returns normally at once and changes nothing,
    whatever the environment or the library would do. *)
Theorem initialize_again_changes_nothing env st r st' env' :
  VRChatClient.initialize env st = (Ok r, st') →
  VRChatClient.initialize env' st' = (Ok tt, st').
Proof.
  intros H. destruct (initialize_ok_ready env st r st' H) as [Ha Hapi].
  exact (initialize_noop env' st' Ha Hapi).
Qed.

(** X12. A call of [initialize] on a client that is not yet authenticated
    returns normally only if both credentials are non-empty, the library
    constructor and [login] do not throw, and the api has a current user
    afterwards. The client then holds that api and that user, has no
    initialization error left, is ready, and [getApi] returns the api. *)
Theorem initialize_success env st r st' :
  VRChatClient.isAuthenticated st = false →
  VRChatClient.initialize env st = (Ok r, st') →
  falsyStr (VRChatClient.VRCHAT_USERNAME env) = false
  ∧ falsyStr (VRChatClient.VRCHAT_PASSWORD env) = false
  ∧ ∃ a u,
      VRChatAPI.currentUser a = Some u
      ∧ VRChatClient.getApi st' = Ok a
      ∧ VRChatClient.getCurrentUser st' = Some u
      ∧ VRChatClient.getInitializationError st' = None
      ∧ VRChatClient.isReady st' = true.
Proof.
  intros Hst H. destruct (initialize_ok env st r st' H)
    as [(Ha & _) | (_ & Hu & Hp & created & a & u & _ & _ & Hcu & ->)]; [congruence |].
  split; [exact Hu | split; [exact Hp |]].
  exists a, u. repeat split; try reflexivity. exact Hcu.
Qed.

Lemma initialize_again_changes_nothing_witness :
  VRChatClient.initialize Fixture.loginThrows Sample.started = (Ok tt, Sample.started).
Proof.
  apply (initialize_again_changes_nothing Sample.loginOk VRChatClient.initial tt).
  reflexivity.
Defined.

Lemma initialize_success_witness :
  falsyStr (VRChatClient.VRCHAT_USERNAME Sample.loginOk) = false
  ∧ falsyStr (VRChatClient.VRCHAT_PASSWORD Sample.loginOk) = false
  ∧ ∃ a u,
      VRChatAPI.currentUser a = Some u
      ∧ VRChatClient.getApi Sample.started = Ok a
      ∧ VRChatClient.getCurrentUser Sample.started = Some u
      ∧ VRChatClient.getInitializationError Sample.started = None
      ∧ VRChatClient.isReady Sample.started = true.
Proof.
  apply (initialize_success Sample.loginOk VRChatClient.initial tt).
  - reflexivity.
  - reflexivity.
Defined.

Lemma initializeAll_ready envs st :
  VRChatClient.isAuthenticated st = true → is_Some (VRChatClient.api st) →
  VRChatClient.initializeAll envs st = (map (λ _, Ok tt) envs, st).
Proof.
  intros Ha Hapi. induction envs as [| env rest IH]; cbn [VRChatClient.initializeAll map].
  - reflexivity.
  - rewrite (initialize_noop env st Ha Hapi), IH. reflexivity.
Qed.

Lemma initializeAll_readiness envs : ∀ st,
  VRChatClient.isAuthenticated st = false →
  VRChatClient.isReady (VRChatClient.initializeAll envs st).2
  = existsb succeeded (VRChatClient.initializeAll envs st).1.
Proof.
  induction envs as [| env rest IH]; intros st Hst; cbn [VRChatClient.initializeAll].
  - cbn. unfold VRChatClient.isReady. rewrite Hst. reflexivity.
  - destruct (VRChatClient.initialize env st) as [[[] | err] st1] eqn:Hinit.
    + destruct (initialize_ok env st tt st1 Hinit)
        as [(Ha & _) | (_ & _ & _ & created & a & u & _ & _ & _ & ->)]; [congruence |].
      rewrite initializeAll_ready by (reflexivity || (eexists; reflexivity)).
      reflexivity.
    + specialize (IH st1 (proj1 (initialize_throw env st err st1 Hinit))).
      destruct (VRChatClient.initializeAll rest st1) as [rs st2].
      cbn in *. exact IH.
Qed.

(** X13. Starting from a fresh client, after any sequence of calls of
    [initialize] the client is ready exactly when one of the calls has
    returned normally; a later failure cannot occur and cannot undo it. *)
Theorem ready_iff_some_call_succeeded (envs : list VRChatClient.Env) :
  VRChatClient.isReady (VRChatClient.initializeAll envs VRChatClient.initial).2
  = existsb succeeded (VRChatClient.initializeAll envs VRChatClient.initial).1.
Proof. apply initializeAll_readiness. reflexivity. Qed.



(** X15. When the user name or the password is missing or empty,
    [initialize] on a client that is not authenticated throws the
    configuration error and stores it; the api field is left as it was, so
    neither the library constructor nor [login] has been used. *)
Theorem initialize_without_credentials env st :
  VRChatClient.isAuthenticated st = false →
  VRChatClient.VRCHAT_USERNAME env = None ∨ VRChatClient.VRCHAT_USERNAME env = Some ""
  ∨ VRChatClient.VRCHAT_PASSWORD env = None ∨ VRChatClient.VRCHAT_PASSWORD env = Some "" →
  VRChatClient.initialize env st
  = (Throw (newError "VRCHAT_USERNAME and VRCHAT_PASSWORD are required in .env file"),
     VRChatClient.mk (VRChatClient.api st) false (VRChatClient.currentUser st)
       (Some (newError "VRCHAT_USERNAME and VRCHAT_PASSWORD are required in .env file"))).
Proof.
  intros Hst Hmissing. unfold VRChatClient.initialize, VRChatClient.tryInitialize.
  rewrite Hst. cbn [andb].
  assert (Hfalsy : falsyStr (VRChatClient.VRCHAT_USERNAME env)
                   || falsyStr (VRChatClient.VRCHAT_PASSWORD env) = true).
  { destruct Hmissing as [-> | [-> | [-> | ->]]]; cbn;
      rewrite ?orb_true_r; reflexivity. }
  rewrite Hfalsy. reflexivity.
Qed.

Lemma initialize_without_credentials_witness :
  VRChatClient.initialize Sample.noUsername VRChatClient.initial
  = (Throw (newError "VRCHAT_USERNAME and VRCHAT_PASSWORD are required in .env file"),
     VRChatClient.mk None false None
       (Some (newError "VRCHAT_USERNAME and VRCHAT_PASSWORD are required in .env file"))).
Proof.
  apply (initialize_without_credentials Sample.noUsername VRChatClient.initial).
  - reflexivity.
  - right. left. reflexivity.
Defined.

(** ** index.ts *)

Lemma usable_username (v : option QueryVal) :
  negb (truthy v) || negb (typeofString v) = false →
  ∃ name, v = Some (QStr name) ∧ name ≠ "".
Proof.
  intros H. apply orb_false_elim in H as [Ht Hs].
  destruct v as [[s | items | fields] |]; try discriminate.
  exists s. split; [reflexivity |]. intros ->. discriminate.
Qed.

Lemma tryCheckAdultStatus_not_authenticated req w name e :
  query req !! "username" = Some (QStr name) → name ≠ "" →
  VRChatClient.getApi (vrchatClient w) = Throw e →
  tryCheckAdultStatus req w = (Throw e, afterCooldown w).
Proof.
  intros Hq Hne Hapi. unfold tryCheckAdultStatus. rewrite Hq.
  cbn [truthy typeofString asString]. rewrite (eqb_name_false _ _ Hne). cbn [negb orb].
  unfold mbind at 1. unfold M_bind at 1. rewrite waitForCooldown_run.
  unfold mbind at 1. unfold M_bind at 1. unfold getApi at 1.
  rewrite afterCooldown_client, Hapi. reflexivity.
Qed.

Lemma exact_match_or_none (name : string) (results : list LimitedUser.t) :
  noExactMatch name results ∨ ∃ c, firstExactMatch name results c.
Proof.
  induction results as [| x rest IH].
  - left. constructor.
  - destruct (decide (LimitedUser.displayName x = name)) as [Hx | Hx].
    + right. exists x, [], rest. repeat split; [constructor | exact Hx].
    + destruct IH as [Hnone | (c & pre & post & -> & Hpre & Hc)].
      * left. constructor; assumption.
      * right. exists c, (x :: pre), post.
        repeat split; [constructor; assumption | exact Hc].
Qed.

Lemma checkAdultStatus_caught req w e w1 :
  tryCheckAdultStatus req w = (Throw e, w1) →
  checkAdultStatus req w = (errorAnswer e, w1).
Proof.
  intros H. unfold checkAdultStatus, errorAnswer. rewrite H.
  destruct (ErrorHandler.handleVRChatError e). reflexivity.
Qed.

Lemma checkAdultStatus_none req w name api results :
  query req !! "username" = Some (QStr name) → name ≠ "" →
  VRChatClient.getApi (vrchatClient w) = Ok api →
  searchAllUsers (VRChatAPI.userApi api) name 100 false = Ok results →
  noExactMatch name results →
  checkAdultStatus req w
  = (mkResponse 404
       (errorBody match results with
                  | [] => "User not found"
                  | _ :: _ => "User not found with exact displayName match"
                  end),
     afterSearch name w).
Proof.
  intros Hq Hne Hapi Hsearch Hnone. unfold checkAdultStatus.
  rewrite (tryCheckAdultStatus_searched req w name api Hq Hne Hapi), Hsearch.
  destruct results as [| x rest]; [reflexivity |].
  change (x :: rest) with ([] ++ x :: rest) at 1. rewrite length_cons_nonzero.
  rewrite (findExactMatch_none api name (x :: rest) _ Hnone). reflexivity.
Qed.

(** Every run of the handler is one of the five. *)
Lemma checkAdultStatus_run (req : Request) (w : World) :
  ∃ calls, Run req w (checkAdultStatus req w).1 (checkAdultStatus req w).2 calls.
Proof.
  destruct (negb (truthy (query req !! "username"))
            || negb (typeofString (query req !! "username"))) eqn:Hbad.
  { exists []. unfold checkAdultStatus.
    rewrite (tryCheckAdultStatus_refused req w Hbad). cbn [fst snd].
    apply run_refused. exact Hbad. }
  destruct (usable_username _ Hbad) as (name & Hq & Hne).
  destruct (VRChatClient.getApi (vrchatClient w)) as [api | e] eqn:Hapi.
  2:{ exists [].
      rewrite (checkAdultStatus_caught req w e _
                 (tryCheckAdultStatus_not_authenticated req w name e Hq Hne Hapi)).
      exact (run_not_authenticated req w name e Hq Hne Hapi). }
  destruct (searchAllUsers (VRChatAPI.userApi api) name 100 false)
    as [results | e] eqn:Hsearch.
  2:{ exists [EvSearchAllUsers name 100 false].
      assert (Htry : tryCheckAdultStatus req w = (Throw e, afterSearch name w)).
      { rewrite (tryCheckAdultStatus_searched req w name api Hq Hne Hapi), Hsearch.
        reflexivity. }
      rewrite (checkAdultStatus_caught req w e _ Htry).
      exact (run_search_failed req w name api e Hq Hne Hapi Hsearch). }
  destruct (exact_match_or_none name results) as [Hnone | [c Hc]].
  - exists [EvSearchAllUsers name 100 false].
    rewrite (checkAdultStatus_none req w name api results Hq Hne Hapi Hsearch Hnone).
    exact (run_no_match req w name api results Hq Hne Hapi Hsearch Hnone).
  - exists [EvSearchAllUsers name 100 false; EvGetUserById (LimitedUser.id c)].
    rewrite (checkAdultStatus_found req w name api results c Hq Hne Hapi Hsearch Hc).
    exact (run_match req w name api results c Hq Hne Hapi Hsearch Hc).
Qed.

Lemma afterSearch_calls name w :
  upstreamCalls (trace (afterSearch name w))
  = upstreamCalls (trace w) ++ [EvSearchAllUsers name 100 false].
Proof.
  unfold afterSearch. cbn [trace].
  rewrite upstreamCalls_app, afterCooldown_calls. reflexivity.
Qed.

Lemma Run_effects req w res w' calls :
  Run req w res w' calls →
  upstreamCalls (trace w') = upstreamCalls (trace w) ++ calls
  ∧ vrchatClient w' = vrchatClient w.
Proof.
  intros R. destruct R.
  - split; [symmetry; apply app_nil_r | reflexivity].
  - split; [rewrite afterCooldown_calls; symmetry; apply app_nil_r |].
    apply afterCooldown_client.
  - split; [apply afterSearch_calls | apply afterCooldown_client].
  - split; [apply afterSearch_calls | apply afterCooldown_client].
  - split; [apply afterFetch_calls | apply afterCooldown_client].
Qed.

(** X16. Whatever the request and the world, the handler calls the
    upstream at most twice: nothing, or one search for the requested name
    with [n = 100] and [fuzzy = false], or that search followed by one
    profile request for the first exact match of its result. Nothing is
    retried and no other candidate is looked up. *)
Theorem at_most_one_search_and_one_fetch (req : Request) (w : World) :
  ∃ calls,
    upstreamCalls (trace (checkAdultStatus req w).2) = upstreamCalls (trace w) ++ calls
    ∧ (calls = []
       ∨ ∃ name,
           query req !! "username" = Some (QStr name)
           ∧ (calls = [EvSearchAllUsers name 100 false]
              ∨ ∃ api results c,
                  VRChatClient.getApi (vrchatClient w) = Ok api
                  ∧ searchAllUsers (VRChatAPI.userApi api) name 100 false = Ok results
                  ∧ firstExactMatch name results c
                  ∧ calls = [EvSearchAllUsers name 100 false;
                             EvGetUserById (LimitedUser.id c)])).
Proof.
  destruct (checkAdultStatus_run req w) as [calls R]. exists calls.
  split; [exact (proj1 (Run_effects _ _ _ _ _ R)) |].
  destruct R as [| | name api e Hq | name api results Hq | name api results c Hq Hne Hapi Hs Hc].
  - left. reflexivity.
  - left. reflexivity.
  - right. exists name. split; [exact Hq | left; reflexivity].
  - right. exists name. split; [exact Hq | left; reflexivity].
  - right. exists name. split; [exact Hq | right].
    exists api, results, c. repeat split; assumption.
Qed.

Lemma errorAnswer_not_ok (e : Thrown) : status (errorAnswer e) ≠ 200.
Proof.
  unfold errorAnswer. cbn [status].
  pose proof (proj1 (handleVRChatError_range e)). lia.
Qed.

(** X17. An answer with status 200 is never given on another account's
    behalf: it exists only when the search returned a candidate whose
    display name is exactly the requested one, the profile of the first
    such candidate was fetched, and the answer was built from that profile,
    so ["age-verified"] is ["true"] only if that profile's verification
    field is ["18+"]. *)
Theorem ok_answers_come_from_the_exact_match (req : Request) (w : World) :
  status (checkAdultStatus req w).1 = 200 →
  ∃ name api results c u,
    query req !! "username" = Some (QStr name)
    ∧ VRChatClient.getApi (vrchatClient w) = Ok api
    ∧ searchAllUsers (VRChatAPI.userApi api) name 100 false = Ok results
    ∧ firstExactMatch name results c
    ∧ getUserById (VRChatAPI.userApi api) (LimitedUser.id c) = Ok u
    ∧ (checkAdultStatus req w).1
      = mkResponse 200
          (JObj [("age-verified",
                  JStr (if bool_decide (User.ageVerificationStatus u = VStr "18+")
                        then "true" else "false"));
                 ("username", JStr (User.displayName u))]).
Proof.
  intros H200. destruct (checkAdultStatus_run req w) as [calls R].
  destruct R as [| name e | name api e | name api results
                 | name api results c Hq Hne Hapi Hs Hc];
    try (cbn in H200; discriminate);
    try (exfalso; exact (errorAnswer_not_ok _ H200)).
  destruct (getUserById (VRChatAPI.userApi api) (LimitedUser.id c)) as [u | e] eqn:Hu.
  - exists name, api, results, c, u. repeat split; assumption.
  - exfalso. exact (errorAnswer_not_ok _ H200).
Qed.

Lemma ok_answers_come_from_the_exact_match_witness :
  let hits := [Fixture.aliceLower; Fixture.alice; Fixture.alice2] in
  ∃ name api results c u,
    query (Fixture.checkRequest "Alice") !! "username" = Some (QStr name)
    ∧ VRChatClient.getApi (vrchatClient (Fixture.ready hits)) = Ok api
    ∧ searchAllUsers (VRChatAPI.userApi api) name 100 false = Ok results
    ∧ firstExactMatch name results c
    ∧ getUserById (VRChatAPI.userApi api) (LimitedUser.id c) = Ok u
    ∧ (checkAdultStatus (Fixture.checkRequest "Alice") (Fixture.ready hits)).1
      = mkResponse 200
          (JObj [("age-verified",
                  JStr (if bool_decide (User.ageVerificationStatus u = VStr "18+")
                        then "true" else "false"));
                 ("username", JStr (User.displayName u))]).
Proof.
  intros hits.
  apply (ok_answers_come_from_the_exact_match (Fixture.checkRequest "Alice")
           (Fixture.ready hits)).
  reflexivity.
Defined.

(** X18. When the session is not authenticated, a request with a usable
    [username] is answered 500 with kind ["Error"] and the text of the
    [getApi] error, not 401. No upstream call is made, but the cooldown has
    already been waited for and its timestamp renewed. *)
Theorem unauthenticated_requests_get_500 (req : Request) (w : World) (name : string) :
  query req !! "username" = Some (QStr name) → name ≠ "" →
  VRChatClient.isAuthenticated (vrchatClient w) = false →
  checkAdultStatus req w
  = (mkResponse 500
       (JObj [("error", JStr "VRChat client is not initialized or authenticated");
              ("errorType", JStr "Error")]),
     afterCooldown w)
  ∧ upstreamCalls (trace (afterCooldown w)) = upstreamCalls (trace w)
  ∧ CooldownManager.lastRequestTime (cooldownManager (afterCooldown w))
    = now (afterCooldown w).
Proof.
  intros Hq Hne Hauth.
  destruct (unauthenticated_not_ready _ Hauth) as [_ Hapi].
  rewrite (checkAdultStatus_caught req w _ _
             (tryCheckAdultStatus_not_authenticated req w name _ Hq Hne Hapi)).
  split; [reflexivity |]. split; [apply afterCooldown_calls |].
  unfold afterCooldown. destruct (CooldownManager.waitTime _ _); reflexivity.
Qed.

Lemma unauthenticated_requests_get_500_witness :
  let w := mkWorld VRChatClient.initial (CooldownManager.mk 10000) 10500 [] in
  checkAdultStatus (Fixture.checkRequest "Alice") w
  = (mkResponse 500
       (JObj [("error", JStr "VRChat client is not initialized or authenticated");
              ("errorType", JStr "Error")]),
     afterCooldown w)
  ∧ upstreamCalls (trace (afterCooldown w)) = upstreamCalls (trace w)
  ∧ CooldownManager.lastRequestTime (cooldownManager (afterCooldown w))
    = now (afterCooldown w).
Proof.
  intros w.
  apply (unauthenticated_requests_get_500 (Fixture.checkRequest "Alice") w "Alice").
  - reflexivity.
  - discriminate.
  - reflexivity.
Defined.

(** X19. When the search throws, the answer is the translation of the
    thrown value by [handleVRChatError]; the search is the only upstream
    call of the request and no profile is requested. *)
Theorem failed_search_is_translated (req : Request) (w : World) (name : string)
    (api : VRChatAPI.t) (e : Thrown) :
  query req !! "username" = Some (QStr name) → name ≠ "" →
  VRChatClient.getApi (vrchatClient w) = Ok api →
  searchAllUsers (VRChatAPI.userApi api) name 100 false = Throw e →
  (checkAdultStatus req w).1
  = mkResponse (ErrorHandler.handleVRChatError e).1
      (ErrorResponse.toJson (ErrorHandler.handleVRChatError e).2)
  ∧ upstreamCalls (trace (checkAdultStatus req w).2)
    = upstreamCalls (trace w) ++ [EvSearchAllUsers name 100 false].
Proof.
  intros Hq Hne Hapi Hsearch.
  assert (Htry : tryCheckAdultStatus req w = (Throw e, afterSearch name w)).
  { rewrite (tryCheckAdultStatus_searched req w name api Hq Hne Hapi), Hsearch.
    reflexivity. }
  rewrite (checkAdultStatus_caught req w e _ Htry).
  split; [reflexivity | apply afterSearch_calls].
Qed.

Lemma failed_search_is_translated_witness :
  (checkAdultStatus (Fixture.checkRequest "Alice") Sample.busy).1
  = mkResponse 429
      (JObj [("error", JStr "Rate limit exceeded"); ("statusCode", JNum 429);
             ("errorType", JStr "RequestError")])
  ∧ upstreamCalls (trace (checkAdultStatus (Fixture.checkRequest "Alice") Sample.busy).2)
    = [EvSearchAllUsers "Alice" 100 false].
Proof.
  apply (failed_search_is_translated (Fixture.checkRequest "Alice") Sample.busy "Alice"
           Sample.busyApi Sample.tooMany).
  - reflexivity.
  - discriminate.
  - reflexivity.
  - reflexivity.
Defined.

(** X20. The validation middleware lets a request through exactly when it
    is for the path [/health], or its user agent and its unity version are
    on their lists and its caller tag, taken from the query or else from
    the header, is a single string on the list of callers. *)
Theorem validate_admits_exactly (req : Request) :
  validate req = None
  ↔ path req = "/health"
    ∨ (userAgentAllowed req ∧ unityVersionAllowed req ∧ calledFromAllowed req).
Proof.
  split.
  - intros H. destruct (String.eqb_spec (path req) "/health") as [Hp | Hp];
      [left; exact Hp | right].
    unfold validate in H. rewrite (eqb_name_false _ _ Hp) in H.
    destruct (falsyStr (get req "user-agent") || _) eqn:Hua; [discriminate |].
    destruct (falsyStr (get req "x-unity-version") || _) eqn:Hunity; [discriminate |].
    destruct (negb (truthy (calledFromOf req)) || _ || _) eqn:Hcf; [discriminate |].
    split; [exact (header_check_passes _ _ Hua) |].
    split; [exact (header_check_passes _ _ Hunity) | exact (calledFrom_check_passes _ Hcf)].
  - intros [Hp | (Hua & Hunity & Hcf)].
    + exact (validate_health_exempt req Hp).
    + exact (validate_admits req Hua Hunity Hcf).
Qed.

Lemma health_status (toISOString : Z → string) (req : Request) (w : World) :
  status (health toISOString req w).1
  = (if VRChatClient.isReady (vrchatClient w) then 200 else 503)
  ∧ (health toISOString req w).2 = w.
Proof.
  unfold health. destruct (VRChatClient.isReady (vrchatClient w)); split; reflexivity.
Qed.

(** What the layers of the app do with a request, one after the other. *)
Lemma handle_app (toISOString : Z → string) (matchPath : string → string → bool)
    (crash : Thrown → Response) (parsed : option Thrown) (req : Request) (w : World) :
  handle (app toISOString matchPath crash parsed) req w
  = match validate req with
    | Some res => (Some res, w)
    | None =>
        if loggable req then
          match parsed with
          | Some e => (Some (crash e), w)
          | None =>
              if servedByGet (method req) && matchPath "/health" (path req)
              then (Some (health toISOString req w).1, w)
              else if servedByGet (method req)
                      && matchPath "/checkAdultStatus" (path req)
              then (Some (checkAdultStatus req w).1, (checkAdultStatus req w).2)
              else (None, w)
          end
        else (Some (crash notPrimitive), w)
    end.
Proof.
  unfold app. cbn [handle].
  unfold validationMiddleware, loggingMiddleware, jsonMiddleware, appGet.
  destruct (validate req); [reflexivity |].
  destruct (loggable req); [| reflexivity].
  destruct parsed; [reflexivity |].
  destruct (servedByGet (method req) && matchPath "/health" (path req)).
  - destruct (health toISOString req w) as [res w1] eqn:Hh.
    pose proof (proj2 (health_status toISOString req w)) as Hw. rewrite Hh in Hw.
    cbn in Hw. subst w1. reflexivity.
  - destruct (servedByGet (method req) && matchPath "/checkAdultStatus" (path req));
      [| reflexivity].
    destruct (checkAdultStatus req w). reflexivity.
Qed.

Lemma handle_health (toISOString : Z → string) (matchPath : string → string → bool)
    (crash : Thrown → Response) (parsed : option Thrown) (req : Request) (w : World) :
  path req = "/health" → method req = "GET" →
  matchPath "/health" "/health" = true →
  handle (app toISOString matchPath crash parsed) req w
  = (Some (if loggable req
           then match parsed with
                | None => (health toISOString req w).1
                | Some e => crash e
                end
           else crash notPrimitive), w).
Proof.
  intros Hp Hm Hmatch. rewrite handle_app.
  rewrite (validate_health_exempt req Hp), Hm, Hp, Hmatch.
  destruct (loggable req); [| reflexivity]. destruct parsed; reflexivity.
Qed.

(** X21. No admission check applies to [/health]: a GET request for it,
    whatever its user agent, unity version and caller tag, goes on to the
    logging layer. If a query value cannot be printed the framework answers
    for the TypeError; if [express.json()] refuses the body the framework
    answers for that error; otherwise the health handler answers, 200 when
    the session is ready and 503 otherwise, where the error text is the
    message of the stored initialization error, or a fixed text when none
    is stored. In no case is the world changed. *)
Theorem health_is_open_to_all (toISOString : Z → string)
    (matchPath : string → string → bool) (crash : Thrown → Response)
    (parsed : option Thrown) (req : Request) (w : World) :
  path req = "/health" → method req = "GET" →
  matchPath "/health" "/health" = true →
  handle (app toISOString matchPath crash parsed) req w
  = (Some (if loggable req
           then match parsed with
                | None => (health toISOString req w).1
                | Some e => crash e
                end
           else crash notPrimitive), w)
  ∧ status (health toISOString req w).1
    = (if VRChatClient.isReady (vrchatClient w) then 200 else 503)
  ∧ (VRChatClient.isReady (vrchatClient w) = false →
     body (health toISOString req w).1
     = JObj [("status", JStr "unhealthy");
             ("timestamp", JStr (toISOString (now w)));
             ("error",
              JStr match VRChatClient.getInitializationError (vrchatClient w) with
                   | Some e => message e
                   | None => "VRChat client not initialized"
                   end);
             ("vrchatClientReady", JBool false)]).
Proof.
  intros Hp Hm Hmatch.
  split; [exact (handle_health toISOString matchPath crash parsed req w Hp Hm Hmatch) |].
  split; [exact (proj1 (health_status toISOString req w)) |].
  intros Hr. unfold health. rewrite Hr. reflexivity.
Qed.

Lemma health_is_open_to_all_witness :
  let stamp := λ _ : Z, "2024-01-01T00:00:00.000Z" in
  let w := mkWorld (VRChatClient.initializeAll [Fixture.loginThrows] VRChatClient.initial).2
             CooldownManager.initial 10500 [] in
  (handle (app stamp String.eqb Fixture.errorPage None) Sample.probe w
   = (Some (mkResponse 503
              (JObj [("status", JStr "unhealthy");
                     ("timestamp", JStr "2024-01-01T00:00:00.000Z");
                     ("error", JStr "Invalid credentials");
                     ("vrchatClientReady", JBool false)])), w)
   ∧ status (health stamp Sample.probe w).1
     = (if VRChatClient.isReady (vrchatClient w) then 200 else 503)
   ∧ (VRChatClient.isReady (vrchatClient w) = false →
      body (health stamp Sample.probe w).1
      = JObj [("status", JStr "unhealthy");
              ("timestamp", JStr (stamp (now w)));
              ("error",
               JStr match VRChatClient.getInitializationError (vrchatClient w) with
                    | Some e => message e
                    | None => "VRChat client not initialized"
                    end);
              ("vrchatClientReady", JBool false)]))
  ∧ (handle (app stamp String.eqb Fixture.errorPage None) Sample.spiked w).1
    = Some (Fixture.errorPage notPrimitive).
Proof.
  intros stamp w. split.
  - apply (health_is_open_to_all stamp String.eqb Fixture.errorPage None Sample.probe w);
      reflexivity.
  - rewrite (proj1 (health_is_open_to_all stamp String.eqb Fixture.errorPage None
                      Sample.spiked w eq_refl eq_refl eq_refl)).
    reflexivity.
Defined.

Lemma checkAdultStatus_keeps_client (req : Request) (w : World) :
  vrchatClient (checkAdultStatus req w).2 = vrchatClient w.
Proof.
  destruct (checkAdultStatus_run req w) as [calls R].
  exact (proj2 (Run_effects _ _ _ _ _ R)).
Qed.

Lemma handle_keeps_client (toISOString : Z → string)
    (matchPath : string → string → bool) (crash : Thrown → Response)
    (parsed : option Thrown) (req : Request) (w : World) :
  vrchatClient (handle (app toISOString matchPath crash parsed) req w).2 = vrchatClient w.
Proof.
  rewrite handle_app.
  destruct (validate req); [reflexivity |].
  destruct (loggable req); [| reflexivity].
  destruct parsed; [reflexivity |].
  destruct (servedByGet (method req) && matchPath "/health" (path req)); [reflexivity |].
  destruct (servedByGet (method req) && matchPath "/checkAdultStatus" (path req));
    [| reflexivity].
  exact (checkAdultStatus_keeps_client req w).
Qed.

(** X22. No request changes the session: whatever the request, its
    headers and its outcome, the client singleton is the same after the
    layers have run as before. Only [initialize] writes it. *)
Theorem requests_leave_the_session_alone (toISOString : Z → string)
    (matchPath : string → string → bool) (crash : Thrown → Response)
    (parsed : option Thrown) (req : Request) (w : World) :
  vrchatClient (handle (app toISOString matchPath crash parsed) req w).2 = vrchatClient w.
Proof. exact (handle_keeps_client toISOString matchPath crash parsed req w). Qed.

(** X23. A GET request that passes the validation middleware and is routed
    to /checkAdultStatus, and not to /health, reaches the handler only
    through the logging layer and [express.json()]. If a query value cannot
    be printed, or the body is refused, the framework answers for the error
    and the world is unchanged: no cooldown, no upstream call. Otherwise the
    request gets the handler's answer and leaves the world the handler
    leaves. *)
Theorem admitted_requests_reach_the_handler (toISOString : Z → string)
    (matchPath : string → string → bool) (crash : Thrown → Response)
    (parsed : option Thrown) (req : Request) (w : World) :
  validate req = None → method req = "GET" →
  matchPath "/health" (path req) = false →
  matchPath "/checkAdultStatus" (path req) = true →
  handle (app toISOString matchPath crash parsed) req w
  = if loggable req then
      match parsed with
      | None => (Some (checkAdultStatus req w).1, (checkAdultStatus req w).2)
      | Some e => (Some (crash e), w)
      end
    else (Some (crash notPrimitive), w).
Proof.
  intros Hv Hm Hh Hc. rewrite handle_app, Hv, Hm, Hh, Hc.
  destruct (loggable req); [| reflexivity]. destruct parsed; reflexivity.
Qed.

Lemma admitted_requests_reach_the_handler_witness :
  let hits := [Fixture.aliceLower; Fixture.alice] in
  let stamp := λ _ : Z, "2024-01-01T00:00:00.000Z" in
  handle (app stamp String.eqb Fixture.errorPage None)
    (Fixture.checkRequest "Alice") (Fixture.ready hits)
  = (Some (mkResponse 200 (JObj [("age-verified", JStr "true"); ("username", JStr "Alice")])),
     afterFetch "Alice" "usr_1" (Fixture.ready hits))
  ∧ handle (app stamp String.eqb Fixture.errorPage (Some Sample.badBody))
      (Fixture.checkRequest "Alice") (Fixture.ready hits)
    = (Some (Fixture.errorPage Sample.badBody), Fixture.ready hits).
Proof.
  intros hits stamp. split.
  - apply (admitted_requests_reach_the_handler stamp String.eqb Fixture.errorPage None
             (Fixture.checkRequest "Alice") (Fixture.ready hits)); reflexivity.
  - apply (admitted_requests_reach_the_handler stamp String.eqb Fixture.errorPage
             (Some Sample.badBody) (Fixture.checkRequest "Alice") (Fixture.ready hits));
      reflexivity.
Defined.

(** ** The process from start-up on *)

Lemma startServer_listening env listen client :
  Startup.startServer env listen = Startup.Listening client →
  VRChatClient.isReady client = true.
Proof.
  unfold Startup.startServer.
  destruct (VRChatClient.initialize env VRChatClient.initial) as [[r | e] st] eqn:Hinit;
    [| discriminate].
  destruct listen; [| discriminate]. intros H. injection H as <-.
  destruct (initialize_ok env _ r st Hinit)
    as [(Ha & _) | (_ & _ & _ & created & api0 & u & _ & _ & _ & ->)]; [discriminate |].
  reflexivity.
Qed.

Lemma health_when_ready (toISOString : Z → string) (req : Request) (w : World) :
  VRChatClient.isReady (vrchatClient w) = true →
  ∃ u, VRChatClient.getCurrentUser (vrchatClient w) = Some u
       ∧ (health toISOString req w).1
         = mkResponse 200
             (JObj [("status", JStr "healthy");
                    ("timestamp", JStr (toISOString (now w)));
                    ("vrchatClientReady", JBool true);
                    ("authenticatedUser", JStr (CurrentUser.displayName u))]).
Proof.
  intros Hr. unfold health. rewrite Hr. cbn [negb].
  unfold VRChatClient.isReady in Hr. apply andb_true_iff in Hr as [_ Hu].
  apply bool_decide_eq_true in Hu as [u Hu].
  exists u. unfold VRChatClient.getCurrentUser. rewrite Hu. split; reflexivity.
Qed.

Lemma serve_health (toISOString : Z → string) (matchPath : string → string → bool)
    (crash : Thrown → Response) (client : VRChatClient.t)
    (arrivals : list Startup.Arrival) :
  VRChatClient.isReady client = true →
  matchPath "/health" "/health" = true →
  ∀ (w : World) (i : nat) (a : Startup.Arrival),
    vrchatClient w = client →
    arrivals !! i = Some a →
    method (Startup.request a) = "GET" → path (Startup.request a) = "/health" →
    loggable (Startup.request a) = true → Startup.body_error a = None →
    ∃ u, VRChatClient.getCurrentUser client = Some u
         ∧ (Startup.serve (app toISOString matchPath crash) arrivals w).1 !! i
           = Some (Some (mkResponse 200
                           (JObj [("status", JStr "healthy");
                                  ("timestamp", JStr (toISOString (Startup.at_time a)));
                                  ("vrchatClientReady", JBool true);
                                  ("authenticatedUser",
                                   JStr (CurrentUser.displayName u))]))).
Proof.
  intros Hr Hmatch.
  induction arrivals as [| a0 rest IH]; intros w i a Hw Hi Hm Hp Hlog Hbody.
  - rewrite lookup_nil in Hi. discriminate.
  - cbn [Startup.serve].
    set (w0 := mkWorld (vrchatClient w) (cooldownManager w) (Startup.at_time a0) (trace w)).
    pose proof (handle_keeps_client toISOString matchPath crash (Startup.body_error a0)
                  (Startup.request a0) w0) as Hkeep.
    destruct (handle (app toISOString matchPath crash (Startup.body_error a0))
                (Startup.request a0) w0) as [res0 w1] eqn:Hh.
    cbn [snd] in Hkeep.
    destruct (Startup.serve (app toISOString matchPath crash) rest w1)
      as [more w2] eqn:Hs.
    destruct i as [| i]; cbn [fst] in *.
    + cbn in Hi. injection Hi as ->.
      rewrite (handle_health toISOString matchPath crash _ _ w0 Hp Hm Hmatch),
        Hlog, Hbody in Hh.
      injection Hh as <- _.
      destruct (health_when_ready toISOString (Startup.request a) w0) as (u & Hu & Hres).
      { cbn. rewrite Hw. exact Hr. }
      exists u. cbn in Hu. rewrite Hw in Hu. split; [exact Hu |].
      cbn [lookup list_lookup]. rewrite Hres. reflexivity.
    + cbn in Hi.
      destruct (IH w1 i a) as (u & Hu & Hres); try assumption.
      { rewrite Hkeep. cbn. exact Hw. }
      exists u. split; [exact Hu |]. rewrite Hs in Hres. exact Hres.
Qed.

(** X24. The server listens only after [initialize] has succeeded, and no
    request changes the session. So on a listening server, with requests
    served one after the other, every GET request for [/health] that the
    logging layer and [express.json()] let pass is answered 200 with the
    authenticated user's display name and the time of its arrival,
    whatever requests were served before it and however they fared: the
    health handler's 503 answer cannot be obtained from a server that is
    listening. *)
Theorem a_listening_server_is_healthy (env : VRChatClient.Env) (listen : Result unit)
    (client : VRChatClient.t) (toISOString : Z → string)
    (matchPath : string → string → bool) (crash : Thrown → Response)
    (arrivals : list Startup.Arrival) (start : Z) (i : nat) (a : Startup.Arrival) :
  Startup.startServer env listen = Startup.Listening client →
  matchPath "/health" "/health" = true →
  arrivals !! i = Some a →
  method (Startup.request a) = "GET" → path (Startup.request a) = "/health" →
  loggable (Startup.request a) = true → Startup.body_error a = None →
  ∃ u, VRChatClient.getCurrentUser client = Some u
       ∧ (Startup.serve (app toISOString matchPath crash) arrivals
            (Startup.firstWorld client start)).1 !! i
         = Some (Some (mkResponse 200
                         (JObj [("status", JStr "healthy");
                                ("timestamp", JStr (toISOString (Startup.at_time a)));
                                ("vrchatClientReady", JBool true);
                                ("authenticatedUser",
                                 JStr (CurrentUser.displayName u))]))).
Proof.
  intros Hstart Hmatch Hi Hm Hp Hlog Hbody.
  exact (serve_health toISOString matchPath crash client arrivals
           (startServer_listening env listen client Hstart) Hmatch
           (Startup.firstWorld client start) i a eq_refl Hi Hm Hp Hlog Hbody).
Qed.

Lemma a_listening_server_is_healthy_witness :
  let stamp := λ _ : Z, "2024-01-01T00:00:00.000Z" in
  let arrivals :=
    [Startup.mkArrival 10500 (Fixture.checkRequest "Alice") (Some Sample.badBody);
     Startup.mkArrival 10550 Sample.spiked None;
     Startup.mkArrival 10600 Sample.probe None] in
  ∃ u, VRChatClient.getCurrentUser Sample.started = Some u
       ∧ (Startup.serve (app stamp String.eqb Fixture.errorPage) arrivals
            (Startup.firstWorld Sample.started 10000)).1 !! 2%nat
         = Some (Some (mkResponse 200
                         (JObj [("status", JStr "healthy");
                                ("timestamp", JStr (stamp 10600));
                                ("vrchatClientReady", JBool true);
                                ("authenticatedUser",
                                 JStr (CurrentUser.displayName u))]))).
Proof.
  intros stamp arrivals.
  apply (a_listening_server_is_healthy Sample.loginOk (Ok tt) Sample.started stamp
           String.eqb Fixture.errorPage arrivals 10000 2%nat
           (Startup.mkArrival 10600 Sample.probe None)); reflexivity.
Defined.

(** The process keeps running only if the session was initialised and
    [app.listen] did not throw; in every other case it exits with code 1,
    never with another code, and never listens with a session that is not
    ready. *)
Theorem startServer_listens_or_exits_1 (env : VRChatClient.Env) (listen : Result unit) :
  (∃ client, Startup.startServer env listen = Startup.Listening client
             ∧ VRChatClient.isReady client = true
             ∧ ∃ r, VRChatClient.initialize env VRChatClient.initial = (Ok r, client)
                    ∧ listen = Ok tt)
  ∨ (Startup.startServer env listen = Startup.Exited 1
     ∧ (VRChatClient.failed (VRChatClient.initialize env VRChatClient.initial).1 = true
        ∨ ∃ e, listen = Throw e)).
Proof.
  destruct (Startup.startServer env listen) as [client | code] eqn:Hs.
  - left. exists client. split; [reflexivity |].
    split; [exact (startServer_listening env listen client Hs) |].
    unfold Startup.startServer in Hs.
    destruct (VRChatClient.initialize env VRChatClient.initial) as [[r | e] st];
      [| discriminate].
    destruct listen as [[] | e]; [| discriminate]. injection Hs as <-.
    exists r. split; reflexivity.
  - right. unfold Startup.startServer in Hs.
    destruct (VRChatClient.initialize env VRChatClient.initial) as [[r | e] st].
    + destruct listen as [[] | e]; [discriminate |]. injection Hs as <-.
      split; [reflexivity | right; eexists; reflexivity].
    + injection Hs as <-. split; [reflexivity | left; reflexivity].
Qed.

Lemma validate_admits_exactly_witness :
  validate (Fixture.checkRequest "Alice") = None
  ∧ (path Sample.probe = "/health"
     ∨ (userAgentAllowed Sample.probe ∧ unityVersionAllowed Sample.probe
        ∧ calledFromAllowed Sample.probe)).
Proof.
  split.
  - apply (proj2 (validate_admits_exactly (Fixture.checkRequest "Alice"))).
    right. split; [| split].
    + exists Fixture.unityAgent. split; [reflexivity | right; left; reflexivity].
    + exists "2022.3.22f1". split; [reflexivity | right; left; reflexivity].
    + exists "loveworld". split; [reflexivity | left; reflexivity].
  - apply (proj1 (validate_admits_exactly Sample.probe)). reflexivity.
Defined.
